(** * Student grading pipeline: a shallow embedding

    Source: [examples/batch-processing/student-grading-automation.py]
    (class [StudentGradingPipeline]).

    Conventions of the embedding.
    - A Python [dict] is an association list in insertion order with the
      three operations the script uses: lookup, item assignment (in place
      for a key that is present, appended otherwise) and [update].
    - The configuration is the tree [json.load] and the default literal
      build; the script reads it with no validation, so each access
      ([config[a][b]], truth value, arithmetic) is modelled with the
      exception Python raises on a value of the wrong kind.
    - Python numbers are values of a type [R] with the operations of the
      class [PyNumber].  Two instances are given: exact rationals [Q] and
      IEEE binary64 ([PrimFloat.float], the format of CPython's [float]).
      Properties that do not depend on arithmetic are proved for every
      [R]; bounds are proved on [Q]; the concrete figures are evaluated on
      both.
    - On [Q] a number stands for a finite [float], or for an [int] small
      enough to be converted to one, and every operation is exact: there
      is no rounding, no infinity and no NaN, and the [OverflowError] that
      Python raises when an [int] beyond the range of [float] meets a
      [float] or is formatted with [.1f] or [.3f] is not modelled.  A
      statement on [Q] that grading completes is about numbers within
      that range; the bound on the overall score and the statements on
      whole runs say so in their hypotheses ([float_max]).
    - A raised exception is the left injection of a sum ([Exc]); only
      subclasses of [Exception] are modelled.  A call that never returns
      is [None] where the script can wait for ever (the thread pool).
    - Formatted text (f-strings) is kept as a list of fragments: literal
      pieces and format fields holding the value and its format spec.
    - The file system and the external detector are inputs: what
      [iterdir], [rglob] and [stat] return, and how each run of the
      detector ends.  Writing a file is assumed to succeed.
    - Calls to [logging] are not modelled. *)

From Stdlib Require Import List String Ascii Bool ZArith QArith Lqa Lia.
From Stdlib Require Import Permutation.
From Stdlib Require Import Floats.PrimFloat.
Import ListNotations.

Local Open Scope string_scope.
Local Open Scope list_scope.

(** ** Python numbers *)

Class PyNumber (R : Type) : Type := {
  py_int : Z -> R;            (* an [int] literal, or an [int] met by a [float] *)
  py_decimal : Q -> R;        (* a decimal literal such as [0.5] *)
  py_add : R -> R -> R;
  py_sub : R -> R -> R;
  py_mul : R -> R -> R;
  py_quot : R -> R -> R;      (* [/] on a divisor that is not zero *)
  py_is_zero : R -> bool;     (* [x == 0] *)
  py_lt : R -> R -> bool;
  py_le : R -> R -> bool
}.

#[export] Instance Q_number : PyNumber Q := {
  py_int := inject_Z;
  py_decimal := fun q => q;
  py_add := Qplus;
  py_sub := Qminus;
  py_mul := Qmult;
  py_quot := Qdiv;
  py_is_zero := fun x => Qeq_bool x 0;
  py_lt := fun x y => negb (Qle_bool y x);
  py_le := Qle_bool
}.

(* Exact below 2^53, which covers every literal of the script. *)
Fixpoint float_of_positive (p : positive) : float :=
  match p with
  | xH => PrimFloat.one
  | xO p' => PrimFloat.mul PrimFloat.two (float_of_positive p')
  | xI p' =>
      PrimFloat.add (PrimFloat.mul PrimFloat.two (float_of_positive p'))
        PrimFloat.one
  end.

Definition float_of_Z (z : Z) : float :=
  match z with
  | Z0 => PrimFloat.zero
  | Zpos p => float_of_positive p
  | Zneg p => PrimFloat.opp (float_of_positive p)
  end.

#[export] Instance binary64_number : PyNumber float := {
  py_int := float_of_Z;
  (* the quotient of two exact floats is rounded once, as the literal is *)
  py_decimal := fun q =>
    PrimFloat.div (float_of_Z (Qnum q)) (float_of_Z (Zpos (Qden q)));
  py_add := PrimFloat.add;
  py_sub := PrimFloat.sub;
  py_mul := PrimFloat.mul;
  py_quot := PrimFloat.div;
  py_is_zero := fun x => PrimFloat.eqb x PrimFloat.zero;
  py_lt := PrimFloat.ltb;
  py_le := PrimFloat.leb
}.

(** ** Exceptions *)

Inductive exn : Type :=
| KeyError (key : string)
| TypeError (what : string)
| AttributeError (what : string)
| ZeroDivisionError
| ValueError (what : string)
| FileNotFoundError (path : string)
| TimeoutExpired
| OtherError (what : string).

Definition Exc (A : Type) : Type := (exn + A)%type.

Definition ret {A} (a : A) : Exc A := inr a.
Definition raise {A} (e : exn) : Exc A := inl e.
Definition bind {A B} (m : Exc A) (k : A -> Exc B) : Exc B :=
  match m with
  | inl e => inl e
  | inr a => k a
  end.

Notation "x <- m ;; k" := (bind m (fun x => k))
  (at level 61, m at next level, right associativity).

(** ** Python dicts *)

Section Dict.
Context {V : Type}.

Definition dict : Type := list (string * V).

Fixpoint dict_get (key : string) (d : dict) : option V :=
  match d with
  | [] => None
  | (k, v) :: rest => if String.eqb key k then Some v else dict_get key rest
  end.

Definition dict_contains (key : string) (d : dict) : bool :=
  match dict_get key d with
  | Some _ => true
  | None => false
  end.

(* d[key] = value *)
Fixpoint dict_set (key : string) (value : V) (d : dict) : dict :=
  match d with
  | [] => [(key, value)]
  | (k, v) :: rest =>
      if String.eqb key k then (k, value) :: rest
      else (k, v) :: dict_set key value rest
  end.

Definition dict_keys (d : dict) : list string := map fst d.
Definition dict_values (d : dict) : list V := map snd d.

(* d.update(other) *)
Definition dict_update (d other : dict) : dict :=
  fold_left (fun acc kv => dict_set (fst kv) (snd kv) acc) other d.

(* d[key] *)
Definition dict_item (key : string) (d : dict) : Exc V :=
  match dict_get key d with
  | Some v => ret v
  | None => raise (KeyError key)
  end.

End Dict.

Arguments dict V : clear implicits.

(** ** JSON values, as [json.load] builds them *)

Section Json.
Context {R : Type}.

Unset Elimination Schemes.
Inductive json : Type :=
| JNull
| JBool (b : bool)
| JNum (x : R)
| JStr (s : string)
| JArr (items : list json)
| JObj (members : list (string * json)).
Set Elimination Schemes.

(** [_deep_merge]: [base_dict] is updated in place; the result is its
    final content.  The recursion of the source goes through the values
    of [update_dict]; it is written here as a recursion on a value
    ([merged_value]: what [base_dict[key]] holds after the loop body has
    run for [key, value]) and a loop over the items.  The equations of
    the source are [_deep_merge_nil] and [_deep_merge_cons] below. *)
Definition merge_items (on_value : option json -> json -> json)
  : dict json -> dict json -> dict json :=
  fix loop (update_dict base_dict : dict json) {struct update_dict} : dict json :=
    match update_dict with
    | [] => base_dict
    | (key, value) :: rest =>
        loop rest (dict_set key (on_value (dict_get key base_dict) value) base_dict)
    end.

Fixpoint merged_value (old : option json) (value : json) {struct value} : json :=
  match old, value with
  | Some (JObj sub_base), JObj sub_update =>
      JObj (merge_items merged_value sub_update sub_base)
  | _, _ => value
  end.

Definition _deep_merge (base_dict update_dict : dict json) : dict json :=
  merge_items merged_value update_dict base_dict.

End Json.

Arguments json R : clear implicits.

(** ** Dynamic typing: how the script reads a JSON value *)

Section Pipeline.
Context {R : Type} {number : PyNumber R}.

(* [a >= b] *)
Definition ge (a b : R) : bool := py_le b a.

(* [min(a, b)]: the first argument unless the second is smaller *)
Definition py_min (a b : R) : R := if py_lt b a then b else a.

(* [a / b] *)
Definition truediv (a b : R) : Exc R :=
  if py_is_zero b then raise ZeroDivisionError else ret (py_quot a b).

(* truth value of an object *)
Definition truthy (v : json R) : bool :=
  match v with
  | JNull => false
  | JBool b => b
  | JNum x => negb (py_is_zero x)
  | JStr s => negb (String.eqb s "")
  | JArr items => match items with [] => false | _ => true end
  | JObj members => match members with [] => false | _ => true end
  end.

(* an operand of [+], [/]: [bool] is a subclass of [int] *)
Definition as_number (v : json R) : Exc R :=
  match v with
  | JNum x => ret x
  | JBool b => ret (py_int (if b then 1 else 0)%Z)
  | _ => raise (TypeError "unsupported operand type(s)")
  end.

(* [v[key]] for a string key *)
Definition subscript (v : json R) (key : string) : Exc (json R) :=
  match v with
  | JObj members => dict_item key members
  | JArr _ => raise (TypeError "list indices must be integers or slices, not str")
  | JStr _ => raise (TypeError "string indices must be integers, not 'str'")
  | _ => raise (TypeError "object is not subscriptable")
  end.

(* [v.values()] *)
Definition values_of (v : json R) : Exc (list (json R)) :=
  match v with
  | JObj members => ret (dict_values members)
  | _ => raise (AttributeError "values")
  end.

(* [v.get(key, 0)], on a value that has passed [values_of] *)
Definition get_or_zero (v : json R) (key : string) : Exc (json R) :=
  match v with
  | JObj members =>
      ret (match dict_get key members with
           | Some w => w
           | None => JNum (py_int 0)
           end)
  | _ => raise (AttributeError "get")
  end.

(* a path component handed to [os.path.join] *)
Definition as_path (v : json R) : Exc string :=
  match v with
  | JStr s => ret s
  | _ => raise (TypeError "expected str, bytes or os.PathLike object")
  end.

(* [sum(values)]: starts from the int 0 *)
Fixpoint sum_from (acc : R) (values : list (json R)) : Exc R :=
  match values with
  | [] => ret acc
  | v :: rest => x <- as_number v ;; sum_from (py_add acc x) rest
  end.

Definition py_sum (values : list (json R)) : Exc R := sum_from (py_int 0) values.

(* [self.config[section][key]] *)
Definition config_item (config : dict (json R)) (section key : string)
  : Exc (json R) :=
  s <- dict_item section config ;; subscript s key.

(** ** Configuration ([_load_config]) *)

Definition default_config : dict (json R) :=
  [ ("ai_detection", JObj
       [ ("enabled", JBool true);
         ("threshold", JNum (py_decimal (3 # 4)));
         ("analyzers", JStr "git,documentation");
         ("fail_on_detection", JBool false);
         ("include_in_report", JBool true) ]);
    ("grading", JObj
       [ ("system", JStr "letter");
         ("max_score", JNum (py_int 100));
         ("passing_threshold", JNum (py_int 70));
         ("criteria", JObj
            [ ("correctness", JNum (py_int 40));
              ("code_quality", JNum (py_int 25));
              ("documentation", JNum (py_int 15));
              ("testing", JNum (py_int 10));
              ("creativity", JNum (py_int 10)) ]) ]);
    ("assignment", JObj
       [ ("title", JStr "Programming Assignment");
         ("difficulty", JStr "mid");
         ("type", JStr "take-home");
         ("late_penalty", JNum (py_int 10)) ]);
    ("processing", JObj
       [ ("parallel_workers", JNum (py_int 4));
         ("timeout_seconds", JNum (py_int 300)) ]);
    ("output", JObj
       [ ("results_dir", JStr "./grading-results");
         ("reports_dir", JStr "./grading-reports");
         ("individual_feedback", JBool true);
         ("summary_report", JBool true);
         ("csv_export", JBool true) ]) ].

(** What [_load_config] finds at [config_path]. *)
Inductive config_source : Type :=
| NoConfigFile                          (* no path given, or no file there *)
| UnreadableConfig (e : exn)            (* [open] or [json.load] raises *)
| ConfigDocument (user_config : json R).

(* [self._deep_merge(default_config, user_config)]: [.items()] is looked
   up before anything is written *)
Definition merge_user_config (base_dict : dict (json R)) (user_config : json R)
  : Exc (dict (json R)) :=
  match user_config with
  | JObj update_dict => ret (_deep_merge base_dict update_dict)
  | _ => raise (AttributeError "items")
  end.

Definition _load_config (source : config_source) : dict (json R) :=
  match source with
  | NoConfigFile => default_config
  | UnreadableConfig _ => default_config
  | ConfigDocument user_config =>
      match merge_user_config default_config user_config with
      | inr merged => merged
      | inl _ => default_config
      end
  end.

(** ** Data model *)

(* a [datetime], as microseconds since the epoch *)
Definition datetime : Type := Z.

Record StudentSubmission : Type := {
  student_id : string;
  student_name : string;
  submission_path : string;
  submission_time : option datetime;
  late_submission : bool
}.

Record AIDetectionResult : Type := {
  is_ai_generated : bool;
  confidence_score : R;
  risk_level : string;
  patterns_detected : Z;
  high_confidence_patterns : Z;
  analysis_time : Z;
  warnings : list string
}.

(** Formatted text: the pieces of an f-string. *)
Inductive fragment : Type :=
| Lit (s : string)
| Fixed (digits : nat) (x : R)          (* [{x:.1f}], [{x:.3f}] *)
| Str (v : json R)                      (* [{v}] *)
| StrExn (e : exn).                     (* [{str(e)}] *)

(* lines, to be joined by a newline *)
Definition text : Type := list (list fragment).

Record GradingResult : Type := {
  g_student_id : string;
  g_student_name : string;
  ai_detection : option AIDetectionResult;
  overall_score : R;
  grade_letter : string;
  criteria_scores : dict R;
  feedback : text;
  requires_manual_review : bool;
  academic_integrity_flag : bool
}.

(** ** Discovery ([discover_submissions]) *)

(** One entry of [submissions_path.iterdir()], with what the script asks
    of it. *)
Record dir_entry : Type := {
  entry_name : string;                  (* [student_dir.name] *)
  entry_path : string;                  (* [str(student_dir)] *)
  entry_is_dir : bool;
  entry_suffixes : list string;         (* [.suffix] of each path of [rglob('*')] *)
  entry_mtime : option datetime         (* [None] when [stat()] raises *)
}.

Inductive submissions_root : Type :=
| RootMissing
| RootListing (entries : list dir_entry).

Definition ascii_lower (c : ascii) : ascii :=
  let n := nat_of_ascii c in
  if (65 <=? n)%nat && (n <=? 90)%nat then ascii_of_nat (n + 32) else c.

Definition ascii_upper (c : ascii) : ascii :=
  let n := nat_of_ascii c in
  if (97 <=? n)%nat && (n <=? 122)%nat then ascii_of_nat (n - 32) else c.

Definition is_letter (c : ascii) : bool :=
  let n := nat_of_ascii c in
  ((65 <=? n)%nat && (n <=? 90)%nat) || ((97 <=? n)%nat && (n <=? 122)%nat).

(* the ASCII characters [str.split()] separates on *)
Definition is_space (c : ascii) : bool :=
  let n := nat_of_ascii c in
  ((9 <=? n)%nat && (n <=? 13)%nat) || ((28 <=? n)%nat && (n <=? 32)%nat).

Fixpoint str_map (f : ascii -> ascii) (s : string) : string :=
  match s with
  | EmptyString => EmptyString
  | String c rest => String (f c) (str_map f rest)
  end.

(* [s.lower()], ASCII *)
Definition lower (s : string) : string := str_map ascii_lower s.

(* [s.replace(old, new)] for single characters *)
Definition replace_char (old new : ascii) (s : string) : string :=
  str_map (fun c => if Ascii.eqb c old then new else c) s.

(* [s.split()] *)
Fixpoint split_from (word : string) (s : string) : list string :=
  match s with
  | EmptyString => if String.eqb word "" then [] else [word]
  | String c rest =>
      if is_space c
      then (if String.eqb word "" then split_from "" rest
            else word :: split_from "" rest)
      else split_from (word ++ String c EmptyString) rest
  end.

Definition split (s : string) : list string := split_from "" s.

(* [s.title()], ASCII *)
Fixpoint title_from (previous_cased : bool) (s : string) : string :=
  match s with
  | EmptyString => EmptyString
  | String c rest =>
      if is_letter c
      then String (if previous_cased then ascii_lower c else ascii_upper c)
                  (title_from true rest)
      else String c (title_from false rest)
  end.

Definition title (s : string) : string := title_from false s.

Definition _extract_student_name (dir_name : string) : string :=
  let parts := split (replace_char "-" " " (replace_char "_" " " dir_name)) in
  if (2 <=? List.length parts)%nat then String.concat " " (tl parts) else dir_name.

Definition code_extensions : list string :=
  [".py"; ".js"; ".ts"; ".java"; ".cpp"; ".c"; ".go"; ".rb"; ".php"; ".cs"].

Definition str_in (s : string) (l : list string) : bool :=
  existsb (String.eqb s) l.

Definition _has_code_files (directory : dir_entry) : bool :=
  existsb (fun suffix => str_in (lower suffix) code_extensions)
          (entry_suffixes directory).

Definition _get_submission_time (directory : dir_entry) : option datetime :=
  entry_mtime directory.

Definition _is_late_submission (submission_time : option datetime) : bool :=
  false.

Definition discover_entry (student_dir : dir_entry) : list StudentSubmission :=
  if negb (entry_is_dir student_dir) then []
  else if _has_code_files student_dir then
    let time := _get_submission_time student_dir in
    [ {| student_id := entry_name student_dir;
         student_name := _extract_student_name (entry_name student_dir);
         submission_path := entry_path student_dir;
         submission_time := time;
         late_submission := _is_late_submission time |} ]
  else [].

Definition discover_submissions (submissions_dir : string) (root : submissions_root)
  : Exc (list StudentSubmission) :=
  match root with
  | RootMissing =>
      raise (FileNotFoundError ("Submissions directory not found: " ++ submissions_dir))
  | RootListing entries => ret (flat_map discover_entry entries)
  end.

(** ** Detection ([run_ai_detection]) *)

(** The [aiDetection] object of the detector's report: each field is
    absent or has the type the script's dataclass declares.  The
    confidence is a number of the model [R]; on [Q] an integer too large
    for a [float], on which formatting the feedback raises
    [OverflowError], is told apart by [float_max] in the statements. *)
Record ai_detection_json : Type := {
  isAIGenerated : option bool;
  confidenceScore : option R;
  patternsDetected : option Z;
  highConfidencePatterns : option Z;
  analysisTime : option Z
}.

Record metadata_json : Type := { aiDetection : option ai_detection_json }.
Record report_json : Type := { metadata : option metadata_json }.

Definition empty_ai_data : ai_detection_json :=
  {| isAIGenerated := None; confidenceScore := None; patternsDetected := None;
     highConfidencePatterns := None; analysisTime := None |}.

(** What is at the output path once [subprocess.run] has returned. *)
Inductive output_file : Type :=
| NoOutputFile
| UnreadableOutput (e : exn)            (* [open] or [json.load] raises *)
| OutputDocument (data : report_json).

(** One invocation of the external [ai-code-review] command. *)
Inductive detector_run : Type :=
| RunTimeout                            (* [subprocess.TimeoutExpired] *)
| RunFailed (e : exn)                   (* any other exception of [subprocess.run] *)
| RunCompleted (output : output_file).

Definition get_default {A} (o : option A) (default : A) : A :=
  match o with
  | Some a => a
  | None => default
  end.

Definition risk_level_of (confidence : R) : string :=
  if ge confidence (py_decimal (9 # 10)) then "CRITICAL"
  else if ge confidence (py_decimal (8 # 10)) then "HIGH"
  else if ge confidence (py_decimal (6 # 10)) then "MEDIUM"
  else "LOW".

Definition parse_report (data : report_json) : AIDetectionResult :=
  let ai_data :=
    get_default (aiDetection (get_default (metadata data) {| aiDetection := None |}))
                empty_ai_data in
  let confidence := get_default (confidenceScore ai_data) (py_int 0) in
  {| is_ai_generated := get_default (isAIGenerated ai_data) false;
     confidence_score := confidence;
     risk_level := risk_level_of confidence;
     patterns_detected := get_default (patternsDetected ai_data) 0%Z;
     high_confidence_patterns := get_default (highConfidencePatterns ai_data) 0%Z;
     analysis_time := get_default (analysisTime ai_data) 0%Z;
     warnings := [] |}.

(* the body of the [try] block *)
Definition detection_attempt (config : dict (json R)) (run : detector_run)
  : Exc (option AIDetectionResult) :=
  _ <- config_item config "ai_detection" "threshold" ;;
  _ <- config_item config "ai_detection" "analyzers" ;;
  _ <- config_item config "processing" "timeout_seconds" ;;
  match run with
  | RunTimeout => raise TimeoutExpired
  | RunFailed e => raise e
  | RunCompleted NoOutputFile => ret None
  | RunCompleted (UnreadableOutput e) => raise e
  | RunCompleted (OutputDocument data) => ret (Some (parse_report data))
  end.

Definition run_ai_detection (config : dict (json R))
  (ai_code_review : StudentSubmission -> detector_run)
  (submission : StudentSubmission) : Exc (option AIDetectionResult) :=
  enabled <- config_item config "ai_detection" "enabled" ;;
  if negb (truthy enabled) then ret None
  else
    ret (match detection_attempt config (ai_code_review submission) with
         | inr result => result
         | inl _ => None
         end).

(** ** Grading ([calculate_grade]) *)

Definition base_scores : dict R :=
  [ ("correctness", py_int 85);
    ("code_quality", py_int 78);
    ("documentation", py_int 90);
    ("testing", py_int 75);
    ("creativity", py_int 80) ].

(* [for key in scores: scores[key] = f(scores[key])] *)
Definition map_values (f : R -> R) (scores : dict R) : dict R :=
  map (fun kv => (fst kv, f (snd kv))) scores.

(* [ai_result and ai_result.is_ai_generated] *)
Definition flagged (ai_result : option AIDetectionResult) : bool :=
  match ai_result with
  | Some result => is_ai_generated result
  | None => false
  end.

Definition _score_to_letter_grade (score : R) : string :=
  if ge score (py_int 97) then "A+"
  else if ge score (py_int 93) then "A"
  else if ge score (py_int 90) then "A-"
  else if ge score (py_int 87) then "B+"
  else if ge score (py_int 83) then "B"
  else if ge score (py_int 80) then "B-"
  else if ge score (py_int 77) then "C+"
  else if ge score (py_int 73) then "C"
  else if ge score (py_int 70) then "C-"
  else if ge score (py_int 67) then "D+"
  else if ge score (py_int 63) then "D"
  else if ge score (py_int 60) then "D-"
  else "F".

(* [if self.config['ai_detection']['fail_on_detection']: ... else: ...] *)
Definition apply_detection_penalty (config : dict (json R))
  (result : AIDetectionResult) (scores : dict R) : Exc (dict R) :=
  fail_on_detection <- config_item config "ai_detection" "fail_on_detection" ;;
  if truthy fail_on_detection then ret (map_values (fun _ => py_int 0) scores)
  else
    let penalty_factor := py_min (py_decimal (1 # 2)) (confidence_score result) in
    ret (map_values (fun score => py_mul score (py_sub (py_int 1) penalty_factor)) scores).

Definition apply_late_penalty (config : dict (json R)) (scores : dict R)
  : Exc (dict R) :=
  late_penalty <- config_item config "assignment" "late_penalty" ;;
  percent <- as_number late_penalty ;;
  penalty <- truediv percent (py_int 100) ;;
  ret (map_values (fun score => py_mul score (py_sub (py_int 1) penalty)) scores).

(* [if ai_result and ai_result.is_ai_generated: ...]: the scores after
   the detection penalty *)
Definition detection_step (config : dict (json R))
  (ai_result : option AIDetectionResult) : Exc (dict R) :=
  match ai_result with
  | Some result =>
      if is_ai_generated result
      then apply_detection_penalty config result base_scores
      else ret base_scores
  | None => ret base_scores
  end.

(* [if submission.late_submission: ...]: the scores after the late penalty *)
Definition late_step (config : dict (json R)) (submission : StudentSubmission)
  (scores : dict R) : Exc (dict R) :=
  if late_submission submission then apply_late_penalty config scores
  else ret scores.

(* the loop that accumulates [overall_score] *)
Fixpoint weighted_sum (criteria_weights : json R) (total_weight overall_score : R)
  (scores : dict R) : Exc R :=
  match scores with
  | [] => ret overall_score
  | (criterion, score) :: rest =>
      w <- get_or_zero criteria_weights criterion ;;
      w <- as_number w ;;
      weight <- truediv w total_weight ;;
      weighted_sum criteria_weights total_weight
                   (py_add overall_score (py_mul score weight)) rest
  end.

(** [_generate_feedback] *)
Definition _generate_feedback (config : dict (json R))
  (submission : StudentSubmission) (ai_result : option AIDetectionResult)
  (scores : dict R) (overall_score : R) : Exc text :=
  let header :=
    [ [Lit "Overall Score: "; Fixed 1 overall_score; Lit "/100"];
      [Lit ""];
      [Lit "Detailed Breakdown:"] ] in
  let breakdown :=
    map (fun kv => [Lit "- "; Lit (title (fst kv)); Lit ": ";
                    Fixed 1 (snd kv); Lit "/100"]) scores
    ++ [[Lit ""]] in
  let integrity :=
    match ai_result with
    | Some result =>
        if is_ai_generated result then
          [ [Lit "⚠️ ACADEMIC INTEGRITY ALERT:"];
            [Lit "AI-generated content detected (confidence: ";
             Fixed 3 (confidence_score result); Lit ")"];
            [Lit "Risk level: "; Lit (risk_level result)];
            [Lit "This submission requires manual review and discussion."];
            [Lit ""] ]
        else
          [ [Lit "✅ Academic integrity check passed"]; [Lit ""] ]
    | None => []
    end in
  late <-
    (if late_submission submission then
       penalty <- config_item config "assignment" "late_penalty" ;;
       ret [ [Lit "⏰ Late submission penalty applied: -"; Str penalty; Lit "%"];
             [Lit ""] ]
     else ret []) ;;
  let recommendation :=
    if ge overall_score (py_int 90)
    then "- Excellent work! Continue practicing these skills."
    else if ge overall_score (py_int 80)
    then "- Good work! Focus on code quality and documentation."
    else if ge overall_score (py_int 70)
    then "- Passing grade. Review feedback and improve weak areas."
    else "- Below passing. Please review course materials and seek help." in
  let follow_up :=
    if flagged ai_result then
      [ [Lit "- Schedule meeting to discuss academic integrity policies."];
        [Lit "- Complete assignment independently for full credit."] ]
    else [] in
  ret (header ++ breakdown ++ integrity ++ late
       ++ [[Lit "Recommendations:"]; [Lit recommendation]] ++ follow_up).

Definition calculate_grade (config : dict (json R))
  (submission : StudentSubmission) (ai_result : option AIDetectionResult)
  : Exc GradingResult :=
  scores <- detection_step config ai_result ;;
  scores <- late_step config submission scores ;;
  (* weighted overall score *)
  criteria_weights <- config_item config "grading" "criteria" ;;
  weights <- values_of criteria_weights ;;
  total_weight <- py_sum weights ;;
  overall <- weighted_sum criteria_weights total_weight (py_int 0) scores ;;
  feedback_text <- _generate_feedback config submission ai_result scores overall ;;
  ret {| g_student_id := student_id submission;
         g_student_name := student_name submission;
         ai_detection := ai_result;
         overall_score := overall;
         grade_letter := _score_to_letter_grade overall;
         criteria_scores := scores;
         feedback := feedback_text;
         requires_manual_review := flagged ai_result;
         academic_integrity_flag := flagged ai_result |}.

(** ** Orchestration ([process_submission], [process_all_submissions]) *)

(* the result built by the [except Exception] handler *)
Definition failing_result (submission : StudentSubmission) (e : exn)
  : GradingResult :=
  {| g_student_id := student_id submission;
     g_student_name := student_name submission;
     ai_detection := None;
     overall_score := py_int 0;
     grade_letter := "F";
     criteria_scores := [];
     feedback := [[Lit "Processing failed: "; StrExn e]];
     requires_manual_review := true;
     academic_integrity_flag := false |}.

Definition process_submission (config : dict (json R))
  (ai_code_review : StudentSubmission -> detector_run)
  (submission : StudentSubmission) : GradingResult :=
  match (ai_result <- run_ai_detection config ai_code_review submission ;;
         calculate_grade config submission ai_result) with
  | inr grade_result => grade_result
  | inl e => failing_result submission e
  end.

(** The thread pool.  A future holds what its call returned or raised.
    [as_completed] yields the futures in the order in which they finish:
    [completion] gives, for each future in submission order, its place
    among the futures submitted after it (any order is reached by some
    [completion], see [as_completed_any_order]). *)
Definition future : Type := (Exc GradingResult * StudentSubmission)%type.

Definition submit (task : StudentSubmission -> GradingResult)
  (submission : StudentSubmission) : future :=
  (ret (task submission), submission).

Definition insert_at {A} (position : nat) (x : A) (l : list A) : list A :=
  firstn position l ++ x :: skipn position l.

Fixpoint as_completed {A} (completion : list nat) (futures : list A) : list A :=
  match futures with
  | [] => []
  | f :: later => insert_at (hd 0%nat completion) f (as_completed (tl completion) later)
  end.

(* [ThreadPoolExecutor(max_workers=...)]: the constructor, which raises
   on [max_workers <= 0] *)
Definition thread_pool (max_workers : json R) : Exc unit :=
  match max_workers with
  | JNull => ret tt
  | JNum x =>
      if py_le x (py_int 0) then raise (ValueError "max_workers must be greater than 0")
      else ret tt
  | JBool b =>
      if b then ret tt else raise (ValueError "max_workers must be greater than 0")
  | _ => raise (TypeError "'<=' not supported")
  end.

(* [_adjust_thread_count] at the first [submit]: no worker is idle, and a
   thread is started when [num_threads < self._max_workers], that is when
   [0 < max_workers].  [None] stands for [min(32, (os.cpu_count() or 1) + 4)].
   A number that is neither [<= 0] nor [> 0] (a NaN) passes the
   constructor and starts no worker. *)
Definition first_worker_starts (max_workers : json R) : bool :=
  match max_workers with
  | JNull => true
  | JNum x => py_lt (py_int 0) x
  | JBool b => b
  | _ => false
  end.

(* the loop over [as_completed]: a result is appended, an exception is
   logged and the loop goes on *)
Fixpoint collect (results : list GradingResult) (done : list future)
  : list GradingResult :=
  match done with
  | [] => results
  | (inr result, _) :: rest => collect (results ++ [result]) rest
  | (inl _, _) :: rest => collect results rest
  end.

(** [process_all_submissions] returns its results ([Some (inr results)]),
    raises ([Some (inl e)]) or never returns ([None]): when no worker is
    started no future ever completes, and the loop over [as_completed],
    which has no timeout, waits for ever.  With no submission there is
    nothing to wait for. *)
Definition process_all_submissions (config : dict (json R))
  (ai_code_review : StudentSubmission -> detector_run)
  (completion : list nat) (submissions : list StudentSubmission)
  : option (Exc (list GradingResult)) :=
  match (max_workers <- config_item config "processing" "parallel_workers" ;;
         _ <- thread_pool max_workers ;;
         ret max_workers) with
  | inl e => Some (inl e)
  | inr max_workers =>
      let future_to_submission :=
        map (submit (process_submission config ai_code_review)) submissions in
      match submissions with
      | [] => Some (ret [])
      | _ =>
          if first_worker_starts max_workers
          then Some (ret (collect [] (as_completed completion future_to_submission)))
          else None
      end
  end.

(** ** Reports ([generate_reports]) *)

Inductive cell : Type :=
| CellStr (s : string)
| CellNum (x : R)
| CellBool (b : bool).

Record csv_file : Type := {
  csv_header : list string;
  csv_rows : list (list cell)
}.

Record summary : Type := {
  assignment_title : json R;
  total_students : nat;
  avg_score : R;
  ai_flagged : nat;
  manual_review_needed : nat;
  grade_distribution : list (string * nat * R);   (* grade, count, percentage *)
  alerts : list (string * string * R * string)    (* name, id, confidence, risk *)
}.

Record integrity_section : Type := {
  is_student_name : string;
  is_student_id : string;
  is_confidence : R;
  is_risk_level : string;
  is_patterns_detected : Z;
  is_overall_score : R;
  is_grade_letter : string
}.

(** What a run leaves on disk.  A report is kept as the data it is
    rendered from; a content [inl e] is a file whose writing was cut short
    by the exception [e]. *)
Inductive artifact : Type :=
| Directory (path : string)
| FeedbackFile (path : string) (result : GradingResult)
| SummaryFile (path : string) (content : Exc summary)
| CsvFile (path : string) (content : csv_file)
| IntegrityFile (path : string) (content : Exc (list integrity_section)).

(** Code that writes files and may raise: what was written, then how it
    ended. *)
Definition Writes (A : Type) : Type := (list artifact * Exc A)%type.

Definition wret {A} (a : A) : Writes A := ([], ret a).
Definition lift {A} (m : Exc A) : Writes A := ([], m).
Definition emit (a : artifact) : Writes unit := ([a], ret tt).
Definition wbind {A B} (m : Writes A) (k : A -> Writes B) : Writes B :=
  match m with
  | (written, inl e) => (written, inl e)
  | (written, inr a) => let (more, outcome) := k a in (written ++ more, outcome)
  end.

Notation "x <~ m ;; k" := (wbind m (fun x => k))
  (at level 61, m at next level, right associativity).

(* [os.path.join(directory, name)] for a relative [name], POSIX *)
Fixpoint ends_with_slash (s : string) : bool :=
  match s with
  | EmptyString => false
  | String c EmptyString => Ascii.eqb c "/"
  | String _ rest => ends_with_slash rest
  end.

Definition path_join (directory name : string) : string :=
  if String.eqb directory "" then name
  else if ends_with_slash directory then directory ++ name
  else directory ++ "/" ++ name.

Definition output_path (config : dict (json R)) (dir_key name : string)
  : Exc string :=
  directory <- config_item config "output" dir_key ;;
  directory <- as_path directory ;;
  ret (path_join directory name).

Fixpoint for_each {A} (l : list A) (body : A -> Writes unit) : Writes unit :=
  match l with
  | [] => wret tt
  | x :: rest => _ <~ body x ;; for_each rest body
  end.

Definition _generate_individual_feedback (config : dict (json R))
  (results : list GradingResult) : Writes unit :=
  for_each results (fun result =>
    filepath <~ lift (output_path config "reports_dir"
                        (g_student_id result ++ "_feedback.md")) ;;
    emit (FeedbackFile filepath result)).

Definition count_where {A} (p : A -> bool) (l : list A) : nat :=
  List.length (filter p l).

Definition all_grades : list string :=
  ["A+"; "A"; "A-"; "B+"; "B"; "B-"; "C+"; "C"; "C-"; "D+"; "D"; "D-"; "F"].

(* [result.ai_detection.<field>] *)
Definition ai_info (result : GradingResult) : Exc AIDetectionResult :=
  match ai_detection result with
  | Some info => ret info
  | None => raise (AttributeError "'NoneType' object has no attribute")
  end.

Fixpoint each {A B} (f : A -> Exc B) (l : list A) : Exc (list B) :=
  match l with
  | [] => ret []
  | x :: rest => y <- f x ;; ys <- each f rest ;; ret (y :: ys)
  end.

Definition summary_content (config : dict (json R))
  (results : list GradingResult) (total : nat) (average : R) : Exc summary :=
  report_title <- config_item config "assignment" "title" ;;
  let flagged_count := count_where academic_integrity_flag results in
  rows <- each (fun grade =>
            let count := count_where
                           (fun r => String.eqb (grade_letter r) grade) results in
            percentage <-
              (if (0 <? total)%nat then
                 share <- truediv (py_int (Z.of_nat count)) (py_int (Z.of_nat total)) ;;
                 ret (py_mul share (py_int 100))
               else ret (py_int 0)) ;;
            ret (grade, count, percentage)) all_grades ;;
  flagged_lines <-
    (if (0 <? flagged_count)%nat then
       each (fun r =>
               info <- ai_info r ;;
               ret (g_student_name r, g_student_id r,
                    confidence_score info, risk_level info))
            (filter academic_integrity_flag results)
     else ret []) ;;
  ret {| assignment_title := report_title;
         total_students := total;
         avg_score := average;
         ai_flagged := flagged_count;
         manual_review_needed := count_where requires_manual_review results;
         grade_distribution := rows;
         alerts := flagged_lines |}.

Definition _generate_summary_report (config : dict (json R))
  (results : list GradingResult) : Writes unit :=
  filepath <~ lift (output_path config "reports_dir" "grading_summary.md") ;;
  let total := List.length results in
  average <~ lift (if (0 <? total)%nat
                   then truediv (fold_left py_add (map overall_score results) (py_int 0))
                                (py_int (Z.of_nat total))
                   else ret (py_int 0)) ;;
  let content := summary_content config results total average in
  _ <~ emit (SummaryFile filepath content) ;;
  lift (_ <- content ;; ret tt).

(** [csv.DictWriter] with its defaults ([restval=''],
    [extrasaction='raise']). *)
Definition writerow (fieldnames : list string) (row : dict cell)
  : Exc (list cell) :=
  if forallb (fun key => str_in key fieldnames) (dict_keys row)
  then ret (map (fun name => get_default (dict_get name row) (CellStr ""))
                fieldnames)
  else raise (ValueError "dict contains fields not in fieldnames").

Definition fixed_fieldnames : list string :=
  [ "student_id"; "student_name"; "overall_score"; "grade_letter";
    "ai_detected"; "ai_confidence"; "ai_risk_level";
    "requires_manual_review"; "academic_integrity_flag" ].

Definition csv_row (result : GradingResult) : dict cell :=
  let detection := ai_detection result in
  dict_update
    [ ("student_id", CellStr (g_student_id result));
      ("student_name", CellStr (g_student_name result));
      ("overall_score", CellNum (overall_score result));
      ("grade_letter", CellStr (grade_letter result));
      ("ai_detected",
       CellBool (match detection with
                 | Some d => is_ai_generated d
                 | None => false
                 end));
      ("ai_confidence",
       CellNum (match detection with
                | Some d => confidence_score d
                | None => py_int 0
                end));
      ("ai_risk_level",
       CellStr (match detection with
                | Some d => risk_level d
                | None => "N/A"
                end));
      ("requires_manual_review", CellBool (requires_manual_review result));
      ("academic_integrity_flag", CellBool (academic_integrity_flag result)) ]
    (map (fun kv => (fst kv, CellNum (snd kv))) (criteria_scores result)).

(* the loop over [results]: the rows written, and how the loop ended *)
Fixpoint write_rows (fieldnames : list string) (results : list GradingResult)
  : list (list cell) * Exc unit :=
  match results with
  | [] => ([], ret tt)
  | result :: rest =>
      match writerow fieldnames (csv_row result) with
      | inl e => ([], inl e)
      | inr cells =>
          let (rows, outcome) := write_rows fieldnames rest in
          (cells :: rows, outcome)
      end
  end.

Definition csv_fieldnames (results : list GradingResult) : list string :=
  fixed_fieldnames ++
  match results with
  | first :: _ => dict_keys (criteria_scores first)
  | [] => []
  end.

Definition _generate_csv_export (config : dict (json R))
  (results : list GradingResult) : Writes unit :=
  filepath <~ lift (output_path config "results_dir" "grades.csv") ;;
  let fieldnames := csv_fieldnames results in
  let (rows, outcome) := write_rows fieldnames results in
  _ <~ emit (CsvFile filepath {| csv_header := fieldnames; csv_rows := rows |}) ;;
  lift outcome.

Definition integrity_content (flagged_results : list GradingResult)
  : Exc (list integrity_section) :=
  each (fun result =>
          info <- ai_info result ;;
          ret {| is_student_name := g_student_name result;
                 is_student_id := g_student_id result;
                 is_confidence := confidence_score info;
                 is_risk_level := risk_level info;
                 is_patterns_detected := patterns_detected info;
                 is_overall_score := overall_score result;
                 is_grade_letter := grade_letter result |})
       flagged_results.

Definition _generate_integrity_report (config : dict (json R))
  (results : list GradingResult) : Writes unit :=
  let flagged_results := filter academic_integrity_flag results in
  match flagged_results with
  | [] => wret tt
  | _ =>
      filepath <~ lift (output_path config "reports_dir"
                          "academic_integrity_report.md") ;;
      let content := integrity_content flagged_results in
      _ <~ emit (IntegrityFile filepath content) ;;
      lift (_ <- content ;; ret tt)
  end.

(* [os.makedirs(output_config[key], exist_ok=True)] *)
Definition makedirs (output_config : json R) (key : string) : Writes unit :=
  directory <~ lift (d <- subscript output_config key ;; as_path d) ;;
  emit (Directory directory).

(* [if output_config[key]: body] *)
Definition when_enabled (output_config : json R) (key : string)
  (body : Writes unit) : Writes unit :=
  enabled <~ lift (subscript output_config key) ;;
  if truthy enabled then body else wret tt.

Definition generate_reports (config : dict (json R))
  (results : list GradingResult) : Writes unit :=
  output_config <~ lift (dict_item "output" config) ;;
  _ <~ makedirs output_config "results_dir" ;;
  _ <~ makedirs output_config "reports_dir" ;;
  _ <~ when_enabled output_config "individual_feedback"
         (_generate_individual_feedback config results) ;;
  _ <~ when_enabled output_config "summary_report"
         (_generate_summary_report config results) ;;
  _ <~ when_enabled output_config "csv_export"
         (_generate_csv_export config results) ;;
  _generate_integrity_report config results.

(** ** The pipeline ([run_pipeline]) *)

(** The state a run leaves behind: [self.submissions], [self.results],
    the files written, and how [run_pipeline] ended: it returned
    ([Some (inr tt)]), it raised ([Some (inl e)]), or it never returns
    ([None]). *)
Record pipeline_run : Type := {
  run_submissions : list StudentSubmission;
  run_results : list GradingResult;
  run_artifacts : list artifact;
  run_outcome : option (Exc unit)
}.

Definition run_pipeline (config : dict (json R))
  (submissions_dir : string) (root : submissions_root)
  (ai_code_review : StudentSubmission -> detector_run)
  (completion : list nat) : pipeline_run :=
  match discover_submissions submissions_dir root with
  | inl e =>
      {| run_submissions := []; run_results := [];
         run_artifacts := []; run_outcome := Some (inl e) |}
  | inr [] =>
      (* "No submissions found": logged, then [return] *)
      {| run_submissions := []; run_results := [];
         run_artifacts := []; run_outcome := Some (ret tt) |}
  | inr submissions =>
      match process_all_submissions config ai_code_review completion submissions with
      | None =>
          {| run_submissions := submissions; run_results := [];
             run_artifacts := []; run_outcome := None |}
      | Some (inl e) =>
          {| run_submissions := submissions; run_results := [];
             run_artifacts := []; run_outcome := Some (inl e) |}
      | Some (inr results) =>
          let (written, outcome) := generate_reports config results in
          {| run_submissions := submissions; run_results := results;
             run_artifacts := written; run_outcome := Some outcome |}
      end
  end.

End Pipeline.

(** ** Predicates used in the statements *)

Section Shapes.
Context {R : Type}.

Fixpoint distinct (keys : list string) : bool :=
  match keys with
  | [] => true
  | k :: rest => negb (str_in k rest) && distinct rest
  end.

(** A value as [json.load] builds it: no object holds a key twice. *)
Fixpoint unique_keys (v : json R) : bool :=
  match v with
  | JObj members =>
      distinct (map fst members) && forallb (fun kv => unique_keys (snd kv)) members
  | JArr items => forallb unique_keys items
  | _ => true
  end.

(** [resolved] has every key of [default], at every nesting level. *)
Fixpoint keeps_all_keys (default resolved : json R) : bool :=
  match default with
  | JObj members =>
      match resolved with
      | JObj found =>
          forallb (fun kv =>
                     match dict_get (fst kv) found with
                     | Some v => keeps_all_keys (snd kv) v
                     | None => false
                     end) members
      | _ => false
      end
  | _ => true
  end.

(** [resolved] has every key of [default] at the top level and, below,
    wherever it still holds a mapping in the place of a mapping. *)
Fixpoint keeps_keys_of_mappings (default resolved : json R) : bool :=
  match default with
  | JObj members =>
      match resolved with
      | JObj found =>
          forallb (fun kv =>
                     match dict_get (fst kv) found with
                     | Some v => keeps_keys_of_mappings (snd kv) v
                     | None => false
                     end) members
      | _ => true
      end
  | _ => true
  end.

End Shapes.

Section Preconditions.
Context {R : Type} {number : PyNumber R}.

(** The pool starts: [ThreadPoolExecutor(max_workers=...)] accepts the
    configured number of workers, and a worker is started at the first
    [submit]. *)
Definition executor_starts (config : dict (json R)) : Prop :=
  (max_workers <- config_item config "processing" "parallel_workers" ;;
   _ <- thread_pool max_workers ;;
   ret (first_worker_starts max_workers)) = inr true.

End Preconditions.

(** ** Sample inputs and exact weights *)

Section Samples.
Context {R : Type} {number : PyNumber R}.

Definition sample_submission (late : bool) : StudentSubmission :=
  {| student_id := "s001_doe_jane";
     student_name := _extract_student_name "s001_doe_jane";
     submission_path := "submissions/s001_doe_jane";
     submission_time := None;
     late_submission := late |}.

Definition sample_detection (is_ai : bool) (confidence : R) : AIDetectionResult :=
  {| is_ai_generated := is_ai;
     confidence_score := confidence;
     risk_level := risk_level_of confidence;
     patterns_detected := 0%Z;
     high_confidence_patterns := 0%Z;
     analysis_time := 0%Z;
     warnings := [] |}.

(* the configuration resolved from [{"ai_detection": {"fail_on_detection": true}}] *)
Definition strict_config : dict (json R) :=
  _load_config
    (ConfigDocument (JObj [("ai_detection", JObj [("fail_on_detection", JBool true)])])).

(* the configuration resolved from [{"assignment": {"late_penalty": p}}] *)
Definition config_with_late_penalty (p : R) : dict (json R) :=
  _load_config
    (ConfigDocument (JObj [("assignment", JObj [("late_penalty", JNum p)])])).

(* the configuration resolved from [{"grading": {"criteria": {name: w}}}] *)
Definition config_with_weight (name : string) (w : R) : dict (json R) :=
  _load_config
    (ConfigDocument (JObj [("grading", JObj [("criteria", JObj [(name, JNum w)])])])).

(* the score of one criterion in the outcome of [calculate_grade] *)
Definition criterion_score (outcome : Exc GradingResult) (criterion : string)
  : option R :=
  match outcome with
  | inr g => dict_get criterion (criteria_scores g)
  | inl _ => None
  end.

Definition score_of (outcome : Exc GradingResult) : option R :=
  match outcome with
  | inr g => Some (overall_score g)
  | inl _ => None
  end.

End Samples.

Section ExactWeights.

(* the number a weight stands for *)
Definition weight_value (v : json Q) : Q :=
  match v with
  | JNum w => w
  | _ => 0
  end.

Definition weight_at (weights : dict (json Q)) (criterion : string) : Q :=
  match dict_get criterion weights with
  | Some v => weight_value v
  | None => 0
  end.

Definition total_of (weights : dict (json Q)) : Q :=
  fold_right (fun kv t => weight_value (snd kv) + t) 0 weights.

Definition sum_over (f : string -> Q) (keys : list string) : Q :=
  fold_right (fun k t => f k + t) 0 keys.

(* the weighted mean the loop of [calculate_grade] computes *)
Definition weighted_mean (weights : dict (json Q)) (total : Q) (scores : dict Q) : Q :=
  fold_right (fun kv t => snd kv * (weight_at weights (fst kv) / total) + t) 0 scores.

(* every weight is a number, and none is negative *)
Definition weights_non_negative (weights : dict (json Q)) : Prop :=
  Forall (fun kv => exists w, snd kv = JNum w /\ 0 <= w) weights.

Definition in_range (bound : Q) (scores : dict Q) : Prop :=
  Forall (fun kv => 0 <= snd kv <= bound) scores.

End ExactWeights.


(* the feedback file of a result, under the default configuration *)
Definition feedback_file (result : GradingResult (R := Q)) : artifact :=
  FeedbackFile ("./grading-reports/" ++ g_student_id result ++ "_feedback.md") result.

(** ** Sample inputs on exact rationals *)

(** An override that puts a number where the default has the section
    [grading]: the resolved configuration holds the number, and the keys
    of the section are gone. *)
Definition override_grading : json Q := JObj [("grading", JNum 5)].

(** A submissions directory that exists and holds one folder with no code
    file in it. *)
Definition notes_only : submissions_root :=
  RootListing
    [ {| entry_name := "s002_roe_sam";
         entry_path := "submissions/s002_roe_sam";
         entry_is_dir := true;
         entry_suffixes := [".txt"; ".md"; ""];
         entry_mtime := Some 0%Z |} ].

(** A detector that times out on every submission. *)
Definition detector_times_out : StudentSubmission -> detector_run (R := Q) :=
  fun _ => RunTimeout.

Definition failed_submission : StudentSubmission :=
  {| student_id := "s000_poe_alex";
     student_name := "poe alex";
     submission_path := "submissions/s000_poe_alex";
     submission_time := None;
     late_submission := false |}.

(** A batch whose first result is the failing result of one submission
    and whose second is the graded result of another. *)
Definition failed_then_graded : list (GradingResult (R := Q)) :=
  [ failing_result failed_submission
      (OtherError "int too large to convert to float");
    process_submission default_config detector_times_out (sample_submission false) ].

(** A detector that reports AI-generated content, with confidence 0.95,
    for the submission [s001_doe_jane] and times out for the others. *)
Definition flagging_report : report_json (R := Q) :=
  {| metadata :=
       Some {| aiDetection :=
                 Some {| isAIGenerated := Some true;
                         confidenceScore := Some (95 # 100);
                         patternsDetected := Some 7%Z;
                         highConfidencePatterns := Some 3%Z;
                         analysisTime := Some 1200%Z |} |} |}.

Definition detector_flags_one : StudentSubmission -> detector_run (R := Q) :=
  fun submission =>
    if String.eqb (student_id submission) "s001_doe_jane"
    then RunCompleted (OutputDocument flagging_report)
    else RunTimeout.

(* the configuration resolved from an override that sets every weight to 0 *)
Definition zero_weights_config : dict (json Q) :=
  _load_config
    (ConfigDocument
       (JObj [("grading", JObj [("criteria", JObj
          [ ("correctness", JNum 0); ("code_quality", JNum 0);
            ("documentation", JNum 0); ("testing", JNum 0);
            ("creativity", JNum 0) ])])])).

(** A class folder: three submissions, a folder without code and a
    plain file. *)
Definition class_entries : list dir_entry :=
    [ {| entry_name := "s001_doe_jane"; entry_path := "submissions/s001_doe_jane";
         entry_is_dir := true; entry_suffixes := [".md"; ".py"];
         entry_mtime := Some 1700000000000000%Z |};
      {| entry_name := "README.md"; entry_path := "submissions/README.md";
         entry_is_dir := false; entry_suffixes := [];
         entry_mtime := Some 1700000000000000%Z |};
      {| entry_name := "s003_kim_lee"; entry_path := "submissions/s003_kim_lee";
         entry_is_dir := true; entry_suffixes := [""; ".JS"];
         entry_mtime := None |};
      {| entry_name := "s002_roe_sam"; entry_path := "submissions/s002_roe_sam";
         entry_is_dir := true; entry_suffixes := [".txt"];
         entry_mtime := Some 1700000000000000%Z |};
      {| entry_name := "s004-ray-pat"; entry_path := "submissions/s004-ray-pat";
         entry_is_dir := true; entry_suffixes := [".cpp"; ".h"];
         entry_mtime := Some 1700000000000000%Z |} ].

Definition class_folder : submissions_root := RootListing class_entries.

(* the summary and the integrity sections among the files of a run *)
Definition summary_of (run : pipeline_run (R := Q)) : option summary :=
  match
    flat_map (fun a => match a with
                       | SummaryFile _ (inr content) => [content]
                       | _ => []
                       end) (run_artifacts run)
  with
  | content :: _ => Some content
  | [] => None
  end.

Definition integrity_sections_of (run : pipeline_run (R := Q))
  : list integrity_section :=
  flat_map (fun a => match a with
                     | IntegrityFile _ (inr sections) => sections
                     | _ => []
                     end) (run_artifacts run).

(** The largest [float], [(2 - 2^-52) * 2^1023].  An [int] up to it is
    converted to a [float] without [OverflowError]. *)
Definition float_max : Q := inject_Z (2 ^ 1024 - 2 ^ 971).



(* the configuration resolved from [{"ai_detection": {"enabled": false}}] *)
Definition detection_off_config : dict (json Q) :=
  _load_config
    (ConfigDocument (JObj [("ai_detection", JObj [("enabled", JBool false)])])).

(** A token of a folder name: not empty, made of ASCII characters, with
    no blank, underscore or hyphen in it. *)
Fixpoint plain_chars (s : string) : bool :=
  match s with
  | EmptyString => true
  | String c rest =>
      negb (is_space c) && negb (Ascii.eqb c "_") && negb (Ascii.eqb c "-")
      && (nat_of_ascii c <? 128)%nat
      && plain_chars rest
  end.

Definition plain_token (s : string) : bool :=
  negb (String.eqb s "") && plain_chars s.

(* the entries [discover_submissions] accepts *)
Definition accepted (entry : dir_entry) : bool :=
  entry_is_dir entry && _has_code_files entry.

(** The factors the two penalties put on a score, on exact rationals. *)
Definition detection_factor (fail_on_detection : bool)
  (ai_result : option (AIDetectionResult (R := Q))) : Q :=
  match ai_result with
  | Some result =>
      if is_ai_generated result
      then (if fail_on_detection then 0
            else 1 - py_min (1 # 2) (confidence_score result))
      else 1
  | None => 1
  end.

Definition late_factor (late : bool) (late_penalty : Q) : Q :=
  if late then 1 - late_penalty / 100 else 1.

(* [scores] are [reference] with every score multiplied by [factor] *)
Definition scaled_by (factor : Q) (scores reference : dict Q) : Prop :=
  Forall2 (fun kv kv0 => fst kv = fst kv0 /\ snd kv == snd kv0 * factor)
          scores reference.

(* the place of a letter grade in the table, best grade first *)
Fixpoint position (grade : string) (grades : list string) : nat :=
  match grades with
  | [] => 0
  | g :: rest => if String.eqb grade g then 0 else S (position grade rest)
  end.

Definition grade_rank (grade : string) : nat := position grade all_grades.

(* the submission, had it been handed in on time *)
Definition on_time (submission : StudentSubmission) : StudentSubmission :=
  {| student_id := student_id submission;
     student_name := student_name submission;
     submission_path := submission_path submission;
     submission_time := submission_time submission;
     late_submission := false |}.

(* the configuration resolved from [{"processing": {"parallel_workers": 0}}] *)
Definition no_workers_config : dict (json Q) :=
  _load_config
    (ConfigDocument (JObj [("processing", JObj [("parallel_workers", JNum 0)])])).

(* the configuration resolved from [{"processing": {"parallel_workers": NaN}}],
   on binary64 *)
Definition nan_workers_config : dict (json float) :=
  _load_config
    (ConfigDocument
       (JObj [("processing", JObj [("parallel_workers", JNum PrimFloat.nan)])])).

(** What each kind of file of a run shows about the configuration and
    the results it was written from. *)
Definition written_on_purpose {R : Type} {number : PyNumber R}
  (config : dict (json R)) (results : list (GradingResult (R := R)))
  (a : artifact (R := R)) : Prop :=
  let enabled key :=
    exists v, config_item config "output" key = inr v /\ truthy v = true in
  match a with
  | Directory _ => True
  | FeedbackFile _ result => enabled "individual_feedback" /\ In result results
  | SummaryFile _ _ => enabled "summary_report"
  | CsvFile _ _ => enabled "csv_export"
  | IntegrityFile _ _ =>
      exists result, In result results /\ academic_integrity_flag result = true
  end.


(* lines of the feedback text *)
Definition alert_line {R : Type} : list (fragment (R := R)) :=
  [Lit "⚠️ ACADEMIC INTEGRITY ALERT:"].

Definition passed_line {R : Type} : list (fragment (R := R)) :=
  [Lit "✅ Academic integrity check passed"].

Definition meeting_line {R : Type} : list (fragment (R := R)) :=
  [Lit "- Schedule meeting to discuss academic integrity policies."].

Definition late_line {R : Type} (penalty : json R) : list (fragment (R := R)) :=
  [Lit "⏰ Late submission penalty applied: -"; Str penalty; Lit "%"].

Definition criterion_line {R : Type} (criterion : string) (score : R)
  : list (fragment (R := R)) :=
  [Lit "- "; Lit (title criterion); Lit ": "; Fixed 1 score; Lit "/100"].

(** * Properties *)

(** ** Dicts *)

Section DictFacts.
Context {V : Type}.
Implicit Types (d : dict V) (k : string) (v : V).

Lemma dict_get_set_same k v d : dict_get k (dict_set k v d) = Some v.
Proof.
  induction d as [|[k' v'] d IH]; simpl.
  - now rewrite String.eqb_refl.
  - destruct (String.eqb k k') eqn:E; simpl; rewrite E; auto.
Qed.

Lemma dict_get_set_other k k' v d :
  k <> k' -> dict_get k' (dict_set k v d) = dict_get k' d.
Proof.
  intros Hne. induction d as [|[k0 v0] d IH]; simpl.
  - destruct (String.eqb k' k) eqn:E; auto.
    apply String.eqb_eq in E. congruence.
  - destruct (String.eqb k k0) eqn:E; simpl.
    + apply String.eqb_eq in E. subst k0.
      destruct (String.eqb k' k) eqn:E'; auto.
      apply String.eqb_eq in E'. congruence.
    + now rewrite IH.
Qed.

Lemma dict_get_none_iff k d : dict_get k d = None <-> ~ In k (dict_keys d).
Proof.
  induction d as [|[k0 v0] d IH]; simpl.
  - tauto.
  - destruct (String.eqb k k0) eqn:E.
    + apply String.eqb_eq in E. subst. split; [discriminate | tauto].
    + apply String.eqb_neq in E. rewrite IH. split; intros H.
      * intros [?|?]; [congruence | auto].
      * intros Hin. apply H. now right.
Qed.

Lemma dict_keys_set k v d :
  dict_keys (dict_set k v d) =
  if dict_contains k d then dict_keys d else dict_keys d ++ [k].
Proof.
  unfold dict_contains. induction d as [|[k0 v0] d IH]; simpl; auto.
  destruct (String.eqb k k0) eqn:E; simpl; auto.
  rewrite IH. now destruct (dict_get k d).
Qed.

Lemma str_in_spec k (l : list string) : str_in k l = true <-> In k l.
Proof.
  unfold str_in. rewrite existsb_exists. split.
  - intros (x & Hx & E). apply String.eqb_eq in E. now subst.
  - intros H. exists k. split; auto. apply String.eqb_refl.
Qed.

Lemma distinct_NoDup (l : list string) : distinct l = true <-> NoDup l.
Proof.
  induction l as [|k l IH]; simpl.
  - split; auto. constructor.
  - rewrite andb_true_iff, negb_true_iff, IH. split.
    + intros [H1 H2]. constructor; auto.
      intros Hin. apply str_in_spec in Hin. congruence.
    + intros H. inversion H; subst. split; auto.
      destruct (str_in k l) eqn:E; auto. apply str_in_spec in E. tauto.
Qed.

End DictFacts.

Section DictLookup.
Context {V : Type}.
Implicit Types (d : dict V) (k : string) (v : V).

Lemma dict_get_In k v d : dict_get k d = Some v -> In (k, v) d.
Proof.
  induction d as [|[k0 v0] d IH]; simpl; [discriminate|].
  destruct (String.eqb k k0) eqn:E.
  - apply String.eqb_eq in E. intros [= ->]. subst. now left.
  - intros H. right. auto.
Qed.

Lemma dict_get_unique k v d :
  NoDup (dict_keys d) -> In (k, v) d -> dict_get k d = Some v.
Proof.
  induction d as [|[k0 v0] d IH]; simpl; [tauto|].
  intros Hnd [Hhd|Htl].
  - injection Hhd as -> ->. now rewrite String.eqb_refl.
  - inversion Hnd as [|? ? Hnotin Hnd']; subst.
    destruct (String.eqb k k0) eqn:E.
    + apply String.eqb_eq in E. subst k0. exfalso. apply Hnotin.
      change (In (fst (k, v)) (map fst d)). now apply in_map.
    + auto.
Qed.

End DictLookup.

(** ** Deep merge *)

Section MergeFacts.
Context {R : Type}.
Implicit Types (base update members : dict (json R)) (v : json R).

(** Induction on a JSON value, with the hypothesis on every member. *)
Lemma json_induction (P : json R -> Prop)
  (Hnull : P JNull) (Hbool : forall b, P (JBool b)) (Hnum : forall x, P (JNum x))
  (Hstr : forall s, P (JStr s))
  (Harr : forall items, Forall P items -> P (JArr items))
  (Hobj : forall members, Forall (fun kv => P (snd kv)) members -> P (JObj members))
  : forall v, P v.
Proof.
  fix go 1. intros [| b | x | s | items | members].
  - exact Hnull.
  - apply Hbool.
  - apply Hnum.
  - apply Hstr.
  - apply Harr. induction items as [|item items IH]; constructor.
    + apply go.
    + exact IH.
  - apply Hobj. induction members as [|[k v] members IH]; constructor.
    + apply go.
    + exact IH.
Qed.

(** The equations of the source. *)
Lemma _deep_merge_nil base : _deep_merge base [] = base.
Proof. reflexivity. Qed.

Lemma _deep_merge_cons base key value rest :
  _deep_merge base ((key, value) :: rest) =
  _deep_merge
    (match dict_get key base, value with
     | Some (JObj sub_base), JObj sub_update =>
         dict_set key (JObj (_deep_merge sub_base sub_update)) base
     | _, _ => dict_set key value base
     end) rest.
Proof.
  unfold _deep_merge. simpl.
  destruct (dict_get key base) as [[| | | | |sub_base]|];
    destruct value; reflexivity.
Qed.

Lemma merged_value_eq (old : option (json R)) (value : json R) :
  merged_value old value =
  match old, value with
  | Some (JObj sub_base), JObj sub_update => JObj (_deep_merge sub_base sub_update)
  | _, _ => value
  end.
Proof.
  destruct old as [[| | | | |sub_base]|]; destruct value; reflexivity.
Qed.

Lemma deep_merge_lookup update : forall base key,
  NoDup (dict_keys update) ->
  dict_get key (_deep_merge base update) =
  match dict_get key update with
  | Some value => Some (merged_value (dict_get key base) value)
  | None => dict_get key base
  end.
Proof.
  unfold _deep_merge.
  induction update as [|[k0 v0] update IH]; intros base key Hnd; simpl.
  - reflexivity.
  - inversion Hnd as [|? ? Hnotin Hnd']; subst.
    rewrite IH by assumption.
    destruct (String.eqb key k0) eqn:E.
    + apply String.eqb_eq in E. subst k0.
      apply dict_get_none_iff in Hnotin. rewrite Hnotin.
      apply dict_get_set_same.
    + apply String.eqb_neq in E.
      rewrite dict_get_set_other by congruence. reflexivity.
Qed.

Lemma unique_keys_member members k v :
  unique_keys (JObj members) = true -> In (k, v) members -> unique_keys v = true.
Proof.
  simpl. rewrite andb_true_iff, forallb_forall. intros [_ H] Hin.
  apply (H (k, v) Hin).
Qed.

Lemma unique_keys_NoDup members :
  unique_keys (JObj members) = true -> NoDup (dict_keys members).
Proof.
  simpl. rewrite andb_true_iff. intros [H _]. now apply distinct_NoDup.
Qed.

Lemma keeps_keys_refl : forall v,
  unique_keys v = true -> keeps_keys_of_mappings v v = true.
Proof.
  induction v using json_induction; try reflexivity.
  intros Hu. simpl. apply forallb_forall. intros [k w] Hin. simpl.
  rewrite (dict_get_unique k w members (unique_keys_NoDup _ Hu) Hin).
  rewrite Forall_forall in H. apply (H (k, w) Hin).
  now apply (unique_keys_member members k w).
Qed.

Lemma keeps_keys_merged : forall default : json R,
  unique_keys default = true ->
  forall value : json R, unique_keys value = true ->
  keeps_keys_of_mappings default (merged_value (Some default) value) = true.
Proof.
  induction default using json_induction; try reflexivity.
  intros Hd value Hv. rewrite merged_value_eq.
  destruct value as [| | | | |sub_update]; try reflexivity.
  simpl. apply forallb_forall. intros [k w] Hin. simpl.
  rewrite deep_merge_lookup by now apply unique_keys_NoDup.
  rewrite (dict_get_unique k w members (unique_keys_NoDup _ Hd) Hin).
  rewrite Forall_forall in H.
  pose proof (unique_keys_member members k w Hd Hin) as Hw.
  destruct (dict_get k sub_update) as [u|] eqn:Eu.
  - apply (H (k, w) Hin Hw).
    apply (unique_keys_member sub_update k u Hv). now apply dict_get_In.
  - now apply keeps_keys_refl.
Qed.

End MergeFacts.

(** ** Configuration *)

Section ConfigClaims.
Context {R : Type} {number : PyNumber R}.

Lemma default_config_unique_keys : unique_keys (JObj default_config) = true.
Proof. reflexivity. Qed.

(** C3 (amended).  Deep merge works key by key: after
    [_deep_merge base update], a key of [update] holds the value of
    [update], except that a mapping met by a mapping is merged
    recursively, and every other key holds what it held in [base]; merging
    [{a:{x:1,y:2}}] with [{a:{y:9,z:3}}] gives [{a:{x:1,y:9,z:3}}].  The
    configuration resolved from an override document is this merge onto
    the default tree (the default tree itself when the document is not a
    mapping), so overridden values are reflected; it has every top-level
    key of the default tree and, below, every default key of each section
    that is still a mapping.  A section that the override replaces by a
    value that is not a mapping is replaced wholesale, nested keys
    included. *)
Theorem load_config_deep_merge :
  _deep_merge
    [("a", JObj [("x", JNum (py_int 1)); ("y", JNum (py_int 2))])]
    [("a", JObj [("y", JNum (py_int 9)); ("z", JNum (py_int 3))])]
  = [("a", JObj [("x", JNum (py_int 1)); ("y", JNum (py_int 9)); ("z", JNum (py_int 3))])]
  /\ (forall (base update : dict (json R)) (key : string),
        NoDup (dict_keys update) ->
        dict_get key (_deep_merge base update) =
        match dict_get key update with
        | Some value =>
            Some (match dict_get key base, value with
                  | Some (JObj sub_base), JObj sub_update =>
                      JObj (_deep_merge sub_base sub_update)
                  | _, _ => value
                  end)
        | None => dict_get key base
        end)
  /\ (forall user_config : json R,
        _load_config (ConfigDocument user_config) =
        match user_config with
        | JObj update => _deep_merge default_config update
        | _ => default_config
        end)
  /\ (forall user_config : json R,
        unique_keys user_config = true ->
        keeps_keys_of_mappings
          (JObj default_config)
          (JObj (_load_config (ConfigDocument user_config))) = true).
Proof.
  split; [reflexivity|]. split; [|split].
  - intros base update key Hnd.
    rewrite deep_merge_lookup by assumption.
    destruct (dict_get key update); [|reflexivity].
    now rewrite merged_value_eq.
  - intros user_config. destruct user_config; reflexivity.
  - intros user_config Hu.
    destruct user_config as [| | | | |update];
      try (apply (keeps_keys_refl (JObj default_config)); reflexivity).
    change (JObj (_load_config (ConfigDocument (JObj update))))
      with (merged_value (Some (JObj default_config)) (JObj update)).
    apply keeps_keys_merged; [reflexivity | assumption].
Qed.

End ConfigClaims.

(** C3 on an override of the late penalty, and on an override inside the
    section [grading]. *)
Lemma load_config_deep_merge_witness :
  dict_get "late_penalty"
    (_deep_merge [("late_penalty", JNum 10); ("title", JStr "t")]
                 [("late_penalty", JNum 25)])
  = Some (JNum (25 : Q))
  /\ keeps_keys_of_mappings
       (JObj default_config)
       (JObj (_load_config
                (ConfigDocument
                   (JObj [("grading", JObj [("max_score", JNum (50 : Q))])]))))
     = true.
Proof.
  destruct (load_config_deep_merge (R := Q)) as (_ & Hlookup & _ & Hkeys).
  split.
  - apply (Hlookup [("late_penalty", JNum 10); ("title", JStr "t")]
                   [("late_penalty", JNum 25)] "late_penalty").
    apply distinct_NoDup. reflexivity.
  - apply Hkeys. reflexivity.
Defined.

(** C3 as stated fails on the override [{"grading": 5}]: the document is
    well formed, the resolved configuration holds 5 under [grading], and
    the default keys below [grading] are not all there. *)
Lemma override_replaces_section_wholesale :
  unique_keys override_grading = true
  /\ dict_get "grading" (_load_config (ConfigDocument override_grading))
     = Some (JNum 5)
  /\ keeps_all_keys (JObj default_config)
       (JObj (_load_config (ConfigDocument override_grading))) = false.
Proof. repeat split. Qed.

(** ** Letter grades *)

Local Open Scope Q_scope.

Ltac split_on_thresholds :=
  repeat match goal with
  | |- context [Qle_bool ?a ?b] =>
      let E := fresh "E" in
      destruct (Qle_bool a b) eqn:E;
      [ apply Qle_bool_iff in E
      | assert (~ a <= b) by (rewrite <- Qle_bool_iff; congruence); clear E ]
  end.

(** C5.  The letter grade of a score is fixed by the breakpoints 97, 93,
    90, 87, 83, 80, 77, 73, 70, 67, 63 and 60, each bracket holding its
    lower bound; a score below 60 is an F.  So 96.99 is an A, 97.0 an A+,
    59.99 an F and 60.0 a D-, on exact rationals and on binary64 floats
    alike. *)
Theorem score_to_letter_grade_brackets :
  (forall score : Q,
      (97 <= score -> _score_to_letter_grade score = "A+"%string)
      /\ (93 <= score < 97 -> _score_to_letter_grade score = "A"%string)
      /\ (90 <= score < 93 -> _score_to_letter_grade score = "A-"%string)
      /\ (87 <= score < 90 -> _score_to_letter_grade score = "B+"%string)
      /\ (83 <= score < 87 -> _score_to_letter_grade score = "B"%string)
      /\ (80 <= score < 83 -> _score_to_letter_grade score = "B-"%string)
      /\ (77 <= score < 80 -> _score_to_letter_grade score = "C+"%string)
      /\ (73 <= score < 77 -> _score_to_letter_grade score = "C"%string)
      /\ (70 <= score < 73 -> _score_to_letter_grade score = "C-"%string)
      /\ (67 <= score < 70 -> _score_to_letter_grade score = "D+"%string)
      /\ (63 <= score < 67 -> _score_to_letter_grade score = "D"%string)
      /\ (60 <= score < 63 -> _score_to_letter_grade score = "D-"%string)
      /\ (score < 60 -> _score_to_letter_grade score = "F"%string))
  /\ (_score_to_letter_grade (9699 # 100) = "A"%string
      /\ _score_to_letter_grade (97 : Q) = "A+"%string
      /\ _score_to_letter_grade (5999 # 100) = "F"%string
      /\ _score_to_letter_grade (60 : Q) = "D-"%string)
  /\ (_score_to_letter_grade (py_decimal (9699 # 100) : float) = "A"%string
      /\ _score_to_letter_grade (py_int 97 : float) = "A+"%string
      /\ _score_to_letter_grade (py_decimal (5999 # 100) : float) = "F"%string
      /\ _score_to_letter_grade (py_int 60 : float) = "D-"%string).
Proof.
  split; [|split; [repeat split | repeat split]].
  intros score.
  unfold _score_to_letter_grade, ge; cbn [py_le py_int Q_number].
  unfold inject_Z.
  split_on_thresholds;
    repeat split; intros; try reflexivity; exfalso; lra.
Qed.

(** C5 on the score 85. *)
Lemma score_to_letter_grade_brackets_witness :
  _score_to_letter_grade (85 : Q) = "B"%string.
Proof.
  destruct score_to_letter_grade_brackets as [Hbrackets _].
  destruct (Hbrackets 85) as (_ & _ & _ & _ & HB & _).
  apply HB. split; [discriminate | reflexivity].
Defined.

(** ** Grading *)

Section GradingFacts.
Context {R : Type} {number : PyNumber R}.

Lemma bind_inr {A B} (m : Exc A) (k : A -> Exc B) (b : B) :
  bind m k = inr b -> exists a, m = inr a /\ k a = inr b.
Proof. destruct m as [e|a]; simpl; [discriminate | eauto]. Qed.

Lemma bind_inl {A B} (m : Exc A) (k : A -> Exc B) (e : exn) :
  m = inl e -> bind m k = inl e.
Proof. now intros ->. Qed.

Lemma calculate_grade_inv config submission ai_result g :
  calculate_grade config submission ai_result = inr g ->
  exists penalized scores criteria_weights weights total_weight overall text,
    detection_step config ai_result = inr penalized
    /\ late_step config submission penalized = inr scores
    /\ config_item config "grading" "criteria" = inr criteria_weights
    /\ values_of criteria_weights = inr weights
    /\ py_sum weights = inr total_weight
    /\ weighted_sum criteria_weights total_weight (py_int 0) scores = inr overall
    /\ _generate_feedback config submission ai_result scores overall = inr text
    /\ g = {| g_student_id := student_id submission;
              g_student_name := student_name submission;
              ai_detection := ai_result;
              overall_score := overall;
              grade_letter := _score_to_letter_grade overall;
              criteria_scores := scores;
              feedback := text;
              requires_manual_review := flagged ai_result;
              academic_integrity_flag := flagged ai_result |}.
Proof.
  unfold calculate_grade. intros H.
  apply bind_inr in H as (penalized & H1 & H).
  apply bind_inr in H as (scores & H2 & H).
  apply bind_inr in H as (cw & H3 & H).
  apply bind_inr in H as (weights & H4 & H).
  apply bind_inr in H as (total & H5 & H).
  apply bind_inr in H as (overall & H6 & H).
  apply bind_inr in H as (text & H7 & H).
  injection H as <-.
  exists penalized, scores, cw, weights, total, overall, text.
  repeat split; assumption.
Qed.

End GradingFacts.

(** ** Orchestration *)

Section ScheduleFacts.
Context {A B : Type}.

Lemma insert_at_Permutation (n : nat) (x : A) (l : list A) :
  Permutation (insert_at n x l) (x :: l).
Proof.
  unfold insert_at. symmetry.
  rewrite <- (firstn_skipn n l) at 1.
  apply Permutation_middle.
Qed.

Lemma as_completed_Permutation (futures : list A) :
  forall completion, Permutation (as_completed completion futures) futures.
Proof.
  induction futures as [|f later IH]; intros completion; simpl.
  - constructor.
  - rewrite insert_at_Permutation. constructor. apply IH.
Qed.

Lemma insert_at_map (g : A -> B) (n : nat) (x : A) (l : list A) :
  insert_at n (g x) (map g l) = map g (insert_at n x l).
Proof.
  unfold insert_at.
  now rewrite map_app, firstn_map, skipn_map.
Qed.

Lemma as_completed_map (g : A -> B) (futures : list A) :
  forall completion,
    as_completed completion (map g futures) = map g (as_completed completion futures).
Proof.
  induction futures as [|f later IH]; intros completion; simpl.
  - reflexivity.
  - now rewrite IH, insert_at_map.
Qed.

(** Every order of completion is the order of some [completion]. *)
Lemma as_completed_any_order (futures : list A) :
  forall done, Permutation futures done ->
  exists completion, as_completed completion futures = done.
Proof.
  induction futures as [|f later IH]; intros done Hperm.
  - apply Permutation_nil in Hperm. subst. now exists [].
  - destruct (in_split f done) as (before & after & ->).
    { apply (Permutation_in _ Hperm). now left. }
    apply Permutation_cons_app_inv in Hperm.
    destruct (IH _ Hperm) as (completion & Hc).
    exists (List.length before :: completion). simpl. rewrite Hc.
    unfold insert_at.
    rewrite firstn_app, firstn_all, Nat.sub_diag, firstn_O, app_nil_r.
    rewrite skipn_app, skipn_all, Nat.sub_diag, skipn_O. reflexivity.
Qed.

End ScheduleFacts.

Section OrchestrationClaims.
Context {R : Type} {number : PyNumber R}.
Implicit Types (config : dict (json R)) (submission : StudentSubmission).

Lemma collect_results (task : StudentSubmission -> GradingResult (R := R)) :
  forall (submissions : list StudentSubmission) (results : list GradingResult),
    collect results (map (submit task) submissions) = results ++ map task submissions.
Proof.
  induction submissions as [|s rest IH]; intros results; simpl.
  - now rewrite app_nil_r.
  - rewrite IH, <- app_assoc. reflexivity.
Qed.

(** The results are those of [process_submission], in the order of
    completion. *)
Lemma process_all_submissions_results
  config (ai_code_review : StudentSubmission -> detector_run)
  (completion : list nat) (submissions : list StudentSubmission) :
  executor_starts config ->
  process_all_submissions config ai_code_review completion submissions
  = Some (inr (as_completed completion
                 (map (process_submission config ai_code_review) submissions))).
Proof.
  unfold executor_starts, process_all_submissions. intros Hpool.
  destruct (config_item config "processing" "parallel_workers") as [e|workers];
    cbn [bind] in *; [discriminate|].
  destruct (thread_pool workers) as [e|[]]; cbn [bind ret] in *; [discriminate|].
  injection Hpool as ->.
  destruct submissions as [|first others]; [reflexivity|].
  rewrite as_completed_map, collect_results, as_completed_map. reflexivity.
Qed.

(** Without a pool nothing is graded: when the constructor raises,
    [process_all_submissions] raises the same exception, and when the
    constructor accepts a number of workers with which no worker starts,
    it never returns on a list that is not empty. *)
Lemma process_all_submissions_without_pool
  config (ai_code_review : StudentSubmission -> detector_run)
  (completion : list nat) (submissions : list StudentSubmission) :
  (forall e,
      (max_workers <- config_item config "processing" "parallel_workers" ;;
       thread_pool max_workers) = inl e ->
      process_all_submissions config ai_code_review completion submissions
      = Some (inl e))
  /\ ((max_workers <- config_item config "processing" "parallel_workers" ;;
       _ <- thread_pool max_workers ;;
       ret (first_worker_starts max_workers)) = inr false ->
      submissions <> [] ->
      process_all_submissions config ai_code_review completion submissions = None).
Proof.
  unfold process_all_submissions.
  destruct (config_item config "processing" "parallel_workers") as [e0|workers];
    cbn [bind].
  - split; [intros e [= <-]; reflexivity | discriminate].
  - destruct (thread_pool workers) as [e0|[]]; cbn [bind ret].
    + split; [intros e [= <-]; reflexivity | discriminate].
    + split; [discriminate|]. intros [= ->] Hsome.
      destruct submissions; [contradiction | reflexivity].
Qed.

Lemma process_submission_student_id
  config (ai_code_review : StudentSubmission -> detector_run) submission :
  g_student_id (process_submission config ai_code_review submission)
  = student_id submission.
Proof.
  unfold process_submission.
  destruct (bind _ _) as [e|g] eqn:E; [reflexivity|].
  apply bind_inr in E as (ai & _ & E).
  apply calculate_grade_inv in E
    as (? & ? & ? & ? & ? & ? & ? & _ & _ & _ & _ & _ & _ & _ & ->).
  reflexivity.
Qed.

(** C1 (amended).  Provided the pool starts (the configured number of
    workers is one [ThreadPoolExecutor] accepts and with which a worker
    is started: [None], [true] or a number above 0), then whatever the
    detector does on each submission (report, timeout, failure),
    whatever grading raises and in whatever order the tasks finish,
    [process_all_submissions] returns one result per submission: the
    results are those of [process_submission] on the submissions, in the
    order of completion.  Otherwise no submission gets a result: when
    the lookup of the number of workers or the constructor of the pool
    raises, [process_all_submissions] raises the same exception, and
    when the constructor accepts a number with which no worker starts (a
    NaN) it never returns, on a list that is not empty. *)
Theorem process_all_submissions_one_result_each
  config (ai_code_review : StudentSubmission -> detector_run)
  (completion : list nat) (submissions : list StudentSubmission) :
  (executor_starts config ->
   exists results,
     process_all_submissions config ai_code_review completion submissions
     = Some (inr results)
     /\ List.length results = List.length submissions
     /\ Permutation results
          (map (process_submission config ai_code_review) submissions)
     /\ map g_student_id results
        = as_completed completion (map student_id submissions))
  /\ (forall e,
         (max_workers <- config_item config "processing" "parallel_workers" ;;
          thread_pool max_workers) = inl e ->
         process_all_submissions config ai_code_review completion submissions
         = Some (inl e))
  /\ ((max_workers <- config_item config "processing" "parallel_workers" ;;
       _ <- thread_pool max_workers ;;
       ret (first_worker_starts max_workers)) = inr false ->
      submissions <> [] ->
      process_all_submissions config ai_code_review completion submissions = None).
Proof.
  split; [|apply process_all_submissions_without_pool].
  intros Hpool. eexists. split; [|split; [|split]].
  - now apply process_all_submissions_results.
  - rewrite <- (length_map (process_submission config ai_code_review) submissions).
    apply Permutation_length, as_completed_Permutation.
  - apply as_completed_Permutation.
  - rewrite <- as_completed_map, map_map. f_equal.
    apply map_ext. apply process_submission_student_id.
Qed.

(** C8.  When detection or grading raises for a submission,
    [process_submission] returns the failing result of that submission:
    score 0, grade F, manual review required, and a feedback text that
    carries the message of the exception. *)
Theorem process_submission_absorbs_exceptions
  config (ai_code_review : StudentSubmission -> detector_run) submission (e : exn) :
  (run_ai_detection config ai_code_review submission = inl e
   \/ exists ai_result,
        run_ai_detection config ai_code_review submission = inr ai_result
        /\ calculate_grade config submission ai_result = inl e) ->
  let result := process_submission config ai_code_review submission in
  result = failing_result submission e
  /\ g_student_id result = student_id submission
  /\ g_student_name result = student_name submission
  /\ overall_score result = py_int 0
  /\ grade_letter result = "F"%string
  /\ criteria_scores result = []
  /\ requires_manual_review result = true
  /\ academic_integrity_flag result = false
  /\ feedback result = [[Lit "Processing failed: "; StrExn e]].
Proof.
  intros Hraise result.
  assert (result = failing_result submission e) as ->.
  { unfold result, process_submission.
    destruct Hraise as [H|(ai & H & Hg)]; rewrite H; simpl; [reflexivity|].
    now rewrite Hg. }
  repeat split.
Qed.

(** C9.  A result whose integrity flag is set requires manual review:
    for the results of [calculate_grade], for the failing result, and so
    for every result of [process_submission]. *)
Theorem integrity_flag_implies_manual_review :
  (forall config submission ai_result g,
      calculate_grade config submission ai_result = inr g ->
      academic_integrity_flag g = true -> requires_manual_review g = true)
  /\ (forall submission e,
         academic_integrity_flag (failing_result submission e) = true ->
         requires_manual_review (failing_result submission e) = true)
  /\ (forall config ai_code_review submission,
         academic_integrity_flag
           (process_submission config ai_code_review submission) = true ->
         requires_manual_review
           (process_submission config ai_code_review submission) = true).
Proof.
  assert (Hgrade : forall config submission ai_result g,
             calculate_grade config submission ai_result = inr g ->
             academic_integrity_flag g = true -> requires_manual_review g = true).
  { intros config submission ai_result g Hg.
    apply calculate_grade_inv in Hg
      as (? & ? & ? & ? & ? & ? & ? & _ & _ & _ & _ & _ & _ & _ & ->).
    simpl. auto. }
  split; [exact Hgrade|]. split; [reflexivity|].
  intros config ai_code_review submission. unfold process_submission.
  destruct (bind _ _) as [e|g] eqn:E; [reflexivity|].
  apply bind_inr in E as (ai & _ & E). eauto.
Qed.

End OrchestrationClaims.

(** ** Grading without penalty *)

Section NoPenaltyClaims.
Context {R : Type} {number : PyNumber R}.
Implicit Types (config : dict (json R)) (submission : StudentSubmission)
  (ai_result : option (AIDetectionResult (R := R))).

Lemma feedback_when_not_late config submission ai_result scores overall :
  late_submission submission = false ->
  exists text,
    _generate_feedback config submission ai_result scores overall = inr text.
Proof.
  intros Hlate. unfold _generate_feedback. rewrite Hlate. simpl.
  eexists. reflexivity.
Qed.

Lemma unpenalized_grade config submission ai_result :
  flagged ai_result = false -> late_submission submission = false ->
  forall criteria_weights weights total_weight overall,
    config_item config "grading" "criteria" = inr criteria_weights ->
    values_of criteria_weights = inr weights ->
    py_sum weights = inr total_weight ->
    weighted_sum criteria_weights total_weight (py_int 0) base_scores = inr overall ->
    exists g,
      calculate_grade config submission ai_result = inr g
      /\ criteria_scores g = base_scores
      /\ overall_score g = overall
      /\ grade_letter g = _score_to_letter_grade overall
      /\ ai_detection g = ai_result.
Proof.
  intros Hflag Hlate cw weights total overall H1 H2 H3 H4.
  destruct (feedback_when_not_late config submission ai_result base_scores
              overall Hlate) as (text & Htext).
  unfold calculate_grade, detection_step, late_step.
  assert (Hstep : match ai_result with
                  | Some result =>
                      if is_ai_generated result
                      then apply_detection_penalty config result base_scores
                      else ret base_scores
                  | None => ret base_scores
                  end = ret base_scores).
  { destruct ai_result as [result|]; [|reflexivity].
    simpl in Hflag. now rewrite Hflag. }
  rewrite Hstep. cbn [bind ret]. rewrite Hlate. cbn [bind ret].
  rewrite H1. cbn [bind]. rewrite H2. cbn [bind]. rewrite H3. cbn [bind].
  rewrite H4. cbn [bind]. rewrite Htext. cbn [bind ret].
  eexists. split; [reflexivity|]. repeat split.
Qed.

Lemma unpenalized_grade_inv config submission ai_result g :
  flagged ai_result = false -> late_submission submission = false ->
  calculate_grade config submission ai_result = inr g ->
  exists criteria_weights weights total_weight,
    config_item config "grading" "criteria" = inr criteria_weights
    /\ values_of criteria_weights = inr weights
    /\ py_sum weights = inr total_weight
    /\ weighted_sum criteria_weights total_weight (py_int 0) base_scores
       = inr (overall_score g)
    /\ criteria_scores g = base_scores
    /\ grade_letter g = _score_to_letter_grade (overall_score g)
    /\ academic_integrity_flag g = false
    /\ requires_manual_review g = false.
Proof.
  intros Hflag Hlate Hg.
  apply calculate_grade_inv in Hg
    as (penalized & scores & cw & weights & total & overall & text
        & H1 & H2 & H3 & H4 & H5 & H6 & _ & ->).
  assert (penalized = base_scores) as ->.
  { unfold detection_step in H1. destruct ai_result as [result|].
    - simpl in Hflag. rewrite Hflag in H1. now injection H1.
    - now injection H1. }
  assert (scores = base_scores) as ->.
  { unfold late_step in H2. rewrite Hlate in H2. now injection H2. }
  exists cw, weights, total. simpl. repeat split; assumption.
Qed.

(** No penalty without a flag, for every number model. *)
Lemma unflagged_grade_is_unpenalized
  config submission (result : AIDetectionResult) :
  is_ai_generated result = false ->
  late_submission submission = false ->
  (forall g,
      calculate_grade config submission (Some result) = inr g ->
      criteria_scores g = base_scores
      /\ academic_integrity_flag g = false
      /\ requires_manual_review g = false)
  /\ (forall g0,
         calculate_grade config submission None = inr g0 ->
         exists g,
           calculate_grade config submission (Some result) = inr g
           /\ criteria_scores g = criteria_scores g0
           /\ overall_score g = overall_score g0
           /\ grade_letter g = grade_letter g0)
  /\ (forall other g,
         is_ai_generated other = false ->
         calculate_grade config submission (Some other) = inr g ->
         exists g',
           calculate_grade config submission (Some result) = inr g'
           /\ criteria_scores g' = criteria_scores g
           /\ overall_score g' = overall_score g
           /\ grade_letter g' = grade_letter g).
Proof.
  intros Hflag Hlate.
  assert (Hsame : forall ai_result g0,
             flagged ai_result = false ->
             calculate_grade config submission ai_result = inr g0 ->
             exists g,
               calculate_grade config submission (Some result) = inr g
               /\ criteria_scores g = criteria_scores g0
               /\ overall_score g = overall_score g0
               /\ grade_letter g = grade_letter g0).
  { intros ai_result g0 Hf Hg0.
    apply unpenalized_grade_inv in Hg0
      as (cw & weights & total & H1 & H2 & H3 & H4 & Hs & Hl & _); auto.
    destruct (unpenalized_grade config submission (Some result) Hflag Hlate
                cw weights total (overall_score g0) H1 H2 H3 H4)
      as (g & Hg & Hgs & Hgo & Hgl & _).
    exists g. rewrite Hs, Hl. auto. }
  split; [|split].
  - intros g Hg.
    apply unpenalized_grade_inv in Hg
      as (_ & _ & _ & _ & _ & _ & _ & Hs & _ & Hf & Hr); auto.
  - intros g0 Hg0. now apply (Hsame None).
  - intros other g Hother Hg. now apply (Hsame (Some other)).
Qed.

End NoPenaltyClaims.

(** ** The range of the overall score, on exact rationals *)

Section ExactScore.
Implicit Types (weights : dict (json Q)) (scores : dict Q) (keys : list string).

Lemma sum_from_exact weights :
  weights_non_negative weights ->
  forall acc, exists total,
    sum_from acc (dict_values weights) = inr total
    /\ total == acc + total_of weights.
Proof.
  unfold weights_non_negative.
  induction weights as [|[k v] weights IH]; intros Hw acc; simpl.
  - exists acc. split; [reflexivity | lra].
  - inversion Hw as [|? ? (w & Hv & Hpos) Hrest]; subst. simpl in Hv. subst v.
    simpl. destruct (IH Hrest (acc + w)) as (total & Hsum & Htotal).
    exists total. split; [exact Hsum|]. rewrite Htotal. lra.
Qed.

Lemma total_of_non_negative weights :
  weights_non_negative weights -> 0 <= total_of weights.
Proof.
  unfold weights_non_negative.
  induction 1 as [|[k v] weights (w & Hv & Hpos) _ IH]; simpl.
  - lra.
  - simpl in Hv. subst v. simpl. lra.
Qed.

Lemma weight_at_non_negative weights criterion :
  weights_non_negative weights -> 0 <= weight_at weights criterion.
Proof.
  unfold weights_non_negative, weight_at. intros Hw.
  destruct (dict_get criterion weights) as [v|] eqn:E; [|lra].
  apply dict_get_In in E. rewrite Forall_forall in Hw.
  destruct (Hw _ E) as (w & Hv & Hpos). simpl in Hv. subst v. exact Hpos.
Qed.

Lemma weight_at_numeric weights criterion :
  weights_non_negative weights ->
  exists w,
    get_or_zero (JObj weights) criterion = inr (JNum w)
    /\ w == weight_at weights criterion.
Proof.
  unfold weights_non_negative, weight_at, get_or_zero. intros Hw.
  destruct (dict_get criterion weights) as [v|] eqn:E.
  - apply dict_get_In in E. rewrite Forall_forall in Hw.
    destruct (Hw _ E) as (w & Hv & _). simpl in Hv. subst v.
    exists w. split; reflexivity.
  - exists (inject_Z 0). split; reflexivity.
Qed.

Lemma weighted_sum_exact weights total :
  weights_non_negative weights -> ~ total == 0 ->
  forall scores acc, exists overall,
    weighted_sum (JObj weights) total acc scores = inr overall
    /\ overall == acc + weighted_mean weights total scores.
Proof.
  intros Hw Htotal.
  induction scores as [|[criterion score] scores IH]; intros acc.
  - exists acc. split; [reflexivity | simpl; lra].
  - destruct (weight_at_numeric weights criterion Hw) as (w & Hget & Hwv).
    cbn [weighted_sum]. rewrite Hget. cbn [bind as_number ret].
    unfold truediv. cbn [py_is_zero Q_number].
    destruct (Qeq_bool total 0) eqn:E.
    { apply Qeq_bool_iff in E. contradiction. }
    cbn [bind ret py_add py_mul py_quot Q_number].
    destruct (IH (acc + score * (w / total))) as (overall & Hsum & Hov).
    exists overall. split; [exact Hsum|].
    rewrite Hov. cbn [weighted_mean fold_right fst snd].
    fold (weighted_mean weights total scores). rewrite Hwv. lra.
Qed.

Lemma sum_over_other (f : string -> Q) (a : Q) (k0 : string) keys :
  ~ In k0 keys ->
  sum_over (fun k => if String.eqb k k0 then a else f k) keys == sum_over f keys.
Proof.
  induction keys as [|k keys IH]; intros Hnotin; simpl.
  - reflexivity.
  - destruct (String.eqb k k0) eqn:E.
    + apply String.eqb_eq in E. subst. exfalso. apply Hnotin. now left.
    + rewrite IH; [reflexivity|]. intros Hin. apply Hnotin. now right.
Qed.

Lemma sum_over_one_replaced (f : string -> Q) (a : Q) (k0 : string) keys :
  NoDup keys -> 0 <= a -> (forall k, 0 <= f k) ->
  sum_over (fun k => if String.eqb k k0 then a else f k) keys
  <= a + sum_over f keys.
Proof.
  intros Hnd Ha Hf.
  induction keys as [|k keys IH]; simpl.
  - lra.
  - inversion Hnd as [|? ? Hnotin Hnd']; subst.
    destruct (String.eqb k k0) eqn:E.
    + apply String.eqb_eq in E. subst k.
      rewrite sum_over_other by assumption.
      specialize (Hf k0). lra.
    + specialize (IH Hnd'). lra.
Qed.

Lemma sum_over_ext (f g : string -> Q) keys :
  (forall k, f k == g k) -> sum_over f keys == sum_over g keys.
Proof.
  intros Hfg. induction keys as [|k keys IH]; simpl.
  - reflexivity.
  - now rewrite Hfg, IH.
Qed.

Lemma sum_over_zero keys : sum_over (fun _ => 0) keys == 0.
Proof. induction keys as [|k keys IH]; simpl; [reflexivity | lra]. Qed.

(** The weights of distinct criteria add up to the total at most. *)
Lemma weights_of_keys_le_total weights :
  weights_non_negative weights ->
  forall keys, NoDup keys ->
  sum_over (weight_at weights) keys <= total_of weights.
Proof.
  intros Hw. induction weights as [|[k0 v0] weights IH]; intros keys Hnd.
  - assert (H0 : sum_over (weight_at []) keys == sum_over (fun _ => 0) keys)
      by (apply sum_over_ext; reflexivity).
    rewrite H0, sum_over_zero. simpl. lra.
  - inversion Hw as [|? ? (w & Hv & Hpos) Hrest]; subst.
    simpl in Hv. subst v0.
    assert (H0 : sum_over (weight_at ((k0, JNum w) :: weights)) keys
                 == sum_over (fun k => if String.eqb k k0 then w
                                       else weight_at weights k) keys).
    { apply sum_over_ext. intros k. unfold weight_at. simpl.
      destruct (String.eqb k k0); reflexivity. }
    pose proof (sum_over_one_replaced (weight_at weights) w k0 keys Hnd Hpos
                  (fun k => weight_at_non_negative weights k Hrest)) as H1.
    specialize (IH Hrest keys Hnd). rewrite H0. simpl. lra.
Qed.

End ExactScore.

Section ScoreRange.
Implicit Types (weights : dict (json Q)) (scores : dict Q) (config : dict (json Q)).

Lemma weighted_mean_bounds weights total bound scores :
  weights_non_negative weights -> 0 < total -> 0 <= bound ->
  in_range bound scores ->
  0 <= weighted_mean weights total scores
  /\ weighted_mean weights total scores
     <= bound * (sum_over (weight_at weights) (dict_keys scores) / total).
Proof.
  intros Hw Htotal Hbound. unfold in_range.
  induction 1 as [|[criterion score] scores [Hlo Hhi] _ IH]; simpl.
  - unfold Qdiv. split; [lra|]. ring_simplify. lra.
  - simpl in Hlo, Hhi.
    pose proof (weight_at_non_negative weights criterion Hw) as Hnn.
    assert (Hq : 0 <= weight_at weights criterion / total).
    { apply Qle_shift_div_l; [assumption | lra]. }
    set (q := weight_at weights criterion / total) in *.
    set (rest := sum_over (weight_at weights) (dict_keys scores)) in *.
    assert (Hsplit : (weight_at weights criterion + rest) / total == q + rest / total).
    { unfold q, Qdiv. ring. }
    rewrite Hsplit.
    assert (0 <= score * q) by (apply Qmult_le_0_compat; assumption).
    assert (score * q <= bound * q) by (apply Qmult_le_compat_r; assumption).
    destruct IH as [IHlo IHhi]. split; [lra|].
    rewrite Qmult_plus_distr_r. lra.
Qed.

Lemma map_values_keys (f : Q -> Q) scores :
  dict_keys (map_values f scores) = dict_keys scores.
Proof.
  unfold dict_keys, map_values. rewrite map_map. reflexivity.
Qed.

Lemma map_values_in_range (f : Q -> Q) bound scores :
  (forall s, 0 <= s <= bound -> 0 <= f s <= bound) ->
  in_range bound scores -> in_range bound (map_values f scores).
Proof.
  intros Hf. unfold in_range, map_values.
  induction 1 as [|[k s] scores Hs _ IH]; simpl; constructor; auto.
  simpl in *. now apply Hf.
Qed.

Lemma base_scores_in_range : in_range 90 (base_scores (R := Q)).
Proof.
  unfold in_range, base_scores.
  repeat constructor; simpl; discriminate.
Qed.

Lemma scaled_in_range (factor bound s : Q) :
  0 <= factor <= 1 -> 0 <= s <= bound -> 0 <= s * factor <= bound.
Proof.
  intros [Hf0 Hf1] [Hs0 Hs1]. split.
  - now apply Qmult_le_0_compat.
  - apply Qle_trans with (s * 1); [|lra].
    rewrite !(Qmult_comm s). apply Qmult_le_compat_r; assumption.
Qed.

Lemma py_min_half (c : Q) : 0 <= c -> 0 <= py_min (1 # 2) c <= 1 # 2.
Proof.
  intros Hc. unfold py_min. cbn [py_lt Q_number].
  destruct (Qle_bool (1 # 2) c) eqn:E; simpl.
  - lra.
  - assert (~ (1 # 2) <= c) by (rewrite <- Qle_bool_iff; congruence). lra.
Qed.

Lemma detection_step_in_range config ai_result fail_on_detection :
  config_item config "ai_detection" "fail_on_detection" = inr fail_on_detection ->
  (forall result, ai_result = Some result -> 0 <= confidence_score result) ->
  exists penalized,
    detection_step config ai_result = inr penalized
    /\ dict_keys penalized = dict_keys (base_scores (R := Q))
    /\ in_range 90 penalized.
Proof.
  intros Hfod Hconf. unfold detection_step.
  destruct ai_result as [result|];
    [destruct (is_ai_generated result)|];
    try (exists base_scores; repeat split; apply base_scores_in_range).
  unfold apply_detection_penalty. rewrite Hfod. cbn [bind].
  destruct (truthy fail_on_detection).
  - eexists. split; [reflexivity|]. split; [apply map_values_keys|].
    apply map_values_in_range; [|apply base_scores_in_range].
    intros s _. simpl. split; discriminate.
  - eexists. split; [reflexivity|]. split; [apply map_values_keys|].
    apply map_values_in_range; [|apply base_scores_in_range].
    intros s Hs. cbn [py_mul py_sub py_int py_decimal Q_number].
    pose proof (py_min_half (confidence_score result) (Hconf _ eq_refl)).
    apply scaled_in_range; [|assumption].
    unfold inject_Z. lra.
Qed.

Lemma late_step_in_range config submission (p : Q) scores :
  config_item config "assignment" "late_penalty" = inr (JNum p) ->
  0 <= p <= 100 ->
  in_range 90 scores ->
  exists penalized,
    late_step config submission scores = inr penalized
    /\ dict_keys penalized = dict_keys scores
    /\ in_range 90 penalized.
Proof.
  intros Hp Hrange Hscores. unfold late_step.
  destruct (late_submission submission);
    [|exists scores; repeat split; assumption].
  unfold apply_late_penalty. rewrite Hp. cbn [bind as_number ret].
  unfold truediv. cbn [py_is_zero py_int Q_number].
  change (Qeq_bool (inject_Z 100) 0) with false. cbn [bind ret].
  eexists. split; [reflexivity|]. split; [apply map_values_keys|].
  apply map_values_in_range; [|assumption].
  intros s Hs. cbn [py_mul py_sub py_int py_quot Q_number].
  apply scaled_in_range; [|assumption].
  assert (0 <= p / inject_Z 100 <= 1).
  { split.
    - apply Qle_shift_div_l; [reflexivity | unfold inject_Z; lra].
    - apply Qle_shift_div_r; [reflexivity | unfold inject_Z; lra]. }
  unfold inject_Z in *. lra.
Qed.

End ScoreRange.

Section ScoreRangeClaim.
Implicit Types (weights : dict (json Q)) (scores : dict Q) (config : dict (json Q)).

Lemma feedback_returns config submission
  (ai_result : option AIDetectionResult) scores overall penalty :
  config_item config "assignment" "late_penalty" = inr penalty ->
  exists text,
    _generate_feedback config submission ai_result scores overall = inr text.
Proof.
  intros Hp. unfold _generate_feedback.
  destruct (late_submission submission).
  - rewrite Hp. cbn [bind ret]. eexists. reflexivity.
  - cbn [bind ret]. eexists. reflexivity.
Qed.

Lemma detection_step_returns config (ai_result : option AIDetectionResult)
  fail_on_detection :
  config_item config "ai_detection" "fail_on_detection" = inr fail_on_detection ->
  exists penalized,
    detection_step config ai_result = inr penalized
    /\ dict_keys penalized = dict_keys (base_scores (R := Q)).
Proof.
  intros Hfod. unfold detection_step.
  destruct ai_result as [result|];
    [destruct (is_ai_generated result)|];
    try (exists base_scores; split; reflexivity).
  unfold apply_detection_penalty. rewrite Hfod. cbn [bind].
  destruct (truthy fail_on_detection);
    (eexists; split; [reflexivity | apply map_values_keys]).
Qed.

Lemma late_step_returns config submission (p : Q) scores :
  config_item config "assignment" "late_penalty" = inr (JNum p) ->
  exists penalized,
    late_step config submission scores = inr penalized
    /\ dict_keys penalized = dict_keys scores.
Proof.
  intros Hp. unfold late_step.
  destruct (late_submission submission); [|exists scores; split; reflexivity].
  unfold apply_late_penalty. rewrite Hp. cbn [bind as_number ret].
  unfold truediv. cbn [py_is_zero py_int Q_number].
  change (Qeq_bool (inject_Z 100) 0) with false. cbn [bind ret].
  eexists. split; [reflexivity | apply map_values_keys].
Qed.

(** With weights that are non-negative numbers of positive sum and a
    numeric late penalty, [calculate_grade] raises nothing. *)
Lemma calculate_grade_returns
  config submission (ai_result : option AIDetectionResult)
  (fail_on_detection : json Q) (late_penalty : Q) weights :
  config_item config "ai_detection" "fail_on_detection" = inr fail_on_detection ->
  config_item config "assignment" "late_penalty" = inr (JNum late_penalty) ->
  config_item config "grading" "criteria" = inr (JObj weights) ->
  weights_non_negative weights ->
  0 < total_of weights ->
  exists g,
    calculate_grade config submission ai_result = inr g
    /\ dict_keys (criteria_scores g) = dict_keys (base_scores (R := Q)).
Proof.
  intros Hfod Hlate Hcrit Hw Htotal.
  destruct (detection_step_returns config ai_result _ Hfod)
    as (penalized & Hdet & Hkeys1).
  destruct (late_step_returns config submission late_penalty penalized Hlate)
    as (scores & Hstep & Hkeys2).
  destruct (sum_from_exact weights Hw (inject_Z 0)) as (total & Hsum & Htot).
  assert (Hnz : ~ total == 0) by (rewrite Htot; unfold inject_Z; lra).
  destruct (weighted_sum_exact weights total Hw Hnz scores (inject_Z 0))
    as (overall & Hov & _).
  destruct (feedback_returns config submission ai_result scores overall _ Hlate)
    as (text & Htext).
  eexists. split.
  - unfold calculate_grade.
    rewrite Hdet. cbn [bind]. rewrite Hstep. cbn [bind].
    rewrite Hcrit. cbn [bind values_of ret].
    unfold py_sum. cbn [py_int Q_number]. rewrite Hsum. cbn [bind].
    rewrite Hov. cbn [bind]. rewrite Htext. cbn [bind ret]. reflexivity.
  - cbn [criteria_scores]. now rewrite Hkeys2, Hkeys1.
Qed.

(** Under the default configuration every submission is graded. *)
Lemma default_config_grades submission (ai_result : option AIDetectionResult) :
  exists g,
    calculate_grade (default_config (R := Q)) submission ai_result = inr g
    /\ dict_keys (criteria_scores g) = dict_keys (base_scores (R := Q)).
Proof.
  apply (calculate_grade_returns default_config submission ai_result
           (JBool false) 10
           [ ("correctness", JNum 40); ("code_quality", JNum 25);
             ("documentation", JNum 15); ("testing", JNum 10);
             ("creativity", JNum 10) ]); try reflexivity.
  unfold weights_non_negative.
  repeat constructor; eexists; (split; [reflexivity | discriminate]).
Qed.

(** C2 (amended).  When the criterion weights of the configuration are
    non-negative numbers with a positive sum, its late penalty is a
    number between 0 and 100 and the confidence of the detection result,
    if there is one, is not negative, [calculate_grade] returns a result
    whose overall score lies in [0, 100], whatever [fail_on_detection]
    holds and whether or not the submission is late or flagged.  The
    numbers are finite and within the range of [float] (the sum of the
    weights and the confidence are at most [float_max]), and the score is
    computed exactly: rounding is not modelled. *)
Theorem overall_score_within_bounds
  config submission (ai_result : option AIDetectionResult)
  (fail_on_detection : json Q) (late_penalty : Q) weights :
  config_item config "ai_detection" "fail_on_detection" = inr fail_on_detection ->
  config_item config "assignment" "late_penalty" = inr (JNum late_penalty) ->
  0 <= late_penalty <= 100 ->
  config_item config "grading" "criteria" = inr (JObj weights) ->
  weights_non_negative weights ->
  0 < total_of weights <= float_max ->
  (forall result,
      ai_result = Some result -> 0 <= confidence_score result <= float_max) ->
  exists g,
    calculate_grade config submission ai_result = inr g
    /\ 0 <= overall_score g <= 100.
Proof.
  intros Hfod Hlate Hp Hcrit Hw [Htotal _] Hrange.
  assert (Hconf : forall result,
             ai_result = Some result -> 0 <= confidence_score result)
    by (intros result Hresult; apply (Hrange result Hresult)).
  destruct (detection_step_in_range config ai_result _ Hfod Hconf)
    as (penalized & Hdet & Hkeys1 & Hr1).
  destruct (late_step_in_range config submission late_penalty penalized
              Hlate Hp Hr1) as (scores & Hstep & Hkeys2 & Hr2).
  destruct (sum_from_exact weights Hw (inject_Z 0)) as (total & Hsum & Htot).
  assert (Hpos : 0 < total) by (rewrite Htot; unfold inject_Z; lra).
  assert (Hnz : ~ total == 0) by lra.
  destruct (weighted_sum_exact weights total Hw Hnz scores (inject_Z 0))
    as (overall & Hov & Hmean).
  destruct (feedback_returns config submission ai_result scores overall _ Hlate)
    as (text & Htext).
  eexists. split.
  - unfold calculate_grade.
    rewrite Hdet. cbn [bind]. rewrite Hstep. cbn [bind].
    rewrite Hcrit. cbn [bind values_of ret].
    unfold py_sum. cbn [py_int Q_number]. rewrite Hsum. cbn [bind].
    rewrite Hov. cbn [bind]. rewrite Htext. cbn [bind ret]. reflexivity.
  - cbn [overall_score].
    destruct (weighted_mean_bounds weights total 90 scores Hw Hpos)
      as [Hlo Hhi]; [lra | assumption |].
    assert (Hnd : NoDup (dict_keys scores)).
    { rewrite Hkeys2, Hkeys1. apply distinct_NoDup. reflexivity. }
    pose proof (weights_of_keys_le_total weights Hw _ Hnd) as Hle.
    assert (Hshare : sum_over (weight_at weights) (dict_keys scores) / total <= 1).
    { apply Qle_shift_div_r; [assumption|]. rewrite Htot. unfold inject_Z. lra. }
    rewrite Hmean. unfold inject_Z. split; [lra|].
    apply Qle_trans with (90 * 1); [|lra].
    apply Qle_trans
      with (90 * (sum_over (weight_at weights) (dict_keys scores) / total));
      [lra|].
    rewrite !(Qmult_comm 90). apply Qmult_le_compat_r; [assumption | lra].
Qed.

End ScoreRangeClaim.

(** C2 (amended) on a late submission flagged with confidence 0.95, under
    the default configuration. *)
Lemma overall_score_within_bounds_witness :
  exists g,
    calculate_grade default_config (sample_submission true)
      (Some (sample_detection true (95 # 100))) = inr g
    /\ 0 <= overall_score g <= 100.
Proof.
  apply (overall_score_within_bounds default_config (sample_submission true)
           (Some (sample_detection true (95 # 100)))
           (JBool false) 10
           [ ("correctness", JNum 40); ("code_quality", JNum 25);
             ("documentation", JNum 15); ("testing", JNum 10);
             ("creativity", JNum 10) ]).
  - reflexivity.
  - reflexivity.
  - split; discriminate.
  - reflexivity.
  - unfold weights_non_negative.
    repeat constructor; eexists; (split; [reflexivity | discriminate]).
  - split; [reflexivity | vm_compute; discriminate].
  - intros result [= <-]. split; [discriminate | vm_compute; discriminate].
Defined.

(** C2 as stated fails on three inputs, on which the overall score leaves
    [0, 100]: a late penalty of 200 percent on a late submission, a
    flagged detection result of confidence -1, and an added criterion of
    weight -30. *)
Lemma overall_score_leaves_bounds :
  (exists s,
      score_of (calculate_grade (config_with_late_penalty 200)
                  (sample_submission true) None) = Some s
      /\ s < 0)
  /\ (exists s,
         score_of (calculate_grade default_config (sample_submission false)
                     (Some (sample_detection true (-1)))) = Some s
         /\ 100 < s)
  /\ (exists s,
         score_of (calculate_grade (config_with_weight "bonus" (-30))
                     (sample_submission false) None) = Some s
         /\ 100 < s)
  /\ score_of (calculate_grade (config_with_late_penalty (py_int 200 : float))
                 (sample_submission true) None)
     = Some (PrimFloat.opp (py_decimal (825 # 10))).
Proof.
  repeat split; try (eexists; split; [vm_compute; reflexivity | reflexivity]).
Qed.

(** ** The detection penalty *)

Section DetectionPenalty.
Context {R : Type} {number : PyNumber R}.
Implicit Types (config : dict (json R)) (submission : StudentSubmission).

Lemma flagged_grade_inv config submission (result : AIDetectionResult) g :
  is_ai_generated result = true ->
  calculate_grade config submission (Some result) = inr g ->
  exists fail_on_detection,
    config_item config "ai_detection" "fail_on_detection" = inr fail_on_detection
    /\ late_step config submission
         (if truthy fail_on_detection
          then map_values (fun _ => py_int 0) base_scores
          else map_values
                 (fun score =>
                    py_mul score
                      (py_sub (py_int 1)
                         (py_min (py_decimal (1 # 2)) (confidence_score result))))
                 base_scores)
       = inr (criteria_scores g)
    /\ academic_integrity_flag g = true
    /\ requires_manual_review g = true.
Proof.
  intros Hflag Hg.
  apply calculate_grade_inv in Hg
    as (penalized & scores & ? & ? & ? & ? & ?
        & H1 & H2 & _ & _ & _ & _ & _ & ->).
  unfold detection_step in H1. rewrite Hflag in H1.
  unfold apply_detection_penalty in H1.
  apply bind_inr in H1 as (fod & Hfod & H1).
  exists fod. simpl. rewrite Hflag. repeat split; try assumption.
  destruct (truthy fod); injection H1 as <-; exact H2.
Qed.

End DetectionPenalty.

Lemma zero_scores_stay_zero (config : dict (json Q)) submission scores scores' :
  Forall (fun kv => snd kv == 0) scores ->
  late_step config submission scores = inr scores' ->
  Forall (fun kv => snd kv == 0) scores'.
Proof.
  intros Hzero. unfold late_step.
  destruct (late_submission submission); [|now intros [= <-]].
  unfold apply_late_penalty. intros H.
  apply bind_inr in H as (lp & _ & H).
  apply bind_inr in H as (percent & _ & H).
  apply bind_inr in H as (penalty & _ & H).
  injection H as <-. unfold map_values.
  induction Hzero as [|[k s] scores Hs _ IH]; simpl; constructor; auto.
  simpl in *. rewrite Hs. apply Qmult_0_l.
Qed.

(** C4.  For a flagged detection result, when [fail_on_detection] is
    false the detection step multiplies every criterion score by
    [1 - min(0.5, confidence)], and when it is true every criterion
    score becomes 0 whatever the confidence; the late step, if the
    submission is late, applies to these scores.  Under the default
    configuration grading a flagged submission raises nothing.  On the
    base score 80
    (creativity), a confidence of 0.3 gives 56 and a confidence of 0.9
    gives 40, on exact rationals and on binary64 floats alike. *)
Theorem detection_penalty_scales_scores :
  (forall (R : Type) (number : PyNumber R)
          (config : dict (json R)) submission (result : AIDetectionResult) g,
      is_ai_generated result = true ->
      calculate_grade config submission (Some result) = inr g ->
      exists fail_on_detection,
        config_item config "ai_detection" "fail_on_detection"
        = inr fail_on_detection
        /\ late_step config submission
             (if truthy fail_on_detection
              then map_values (fun _ => py_int 0) base_scores
              else map_values
                     (fun score =>
                        py_mul score
                          (py_sub (py_int 1)
                             (py_min (py_decimal (1 # 2)) (confidence_score result))))
                     base_scores)
           = inr (criteria_scores g)
        /\ (late_submission submission = false ->
            truthy fail_on_detection = false ->
            criteria_scores g
            = map_values
                (fun score =>
                   py_mul score
                     (py_sub (py_int 1)
                        (py_min (py_decimal (1 # 2)) (confidence_score result))))
                base_scores))
  /\ (forall (config : dict (json Q)) submission (result : AIDetectionResult) g
             fail_on_detection,
         is_ai_generated result = true ->
         config_item config "ai_detection" "fail_on_detection"
         = inr fail_on_detection ->
         truthy fail_on_detection = true ->
         calculate_grade config submission (Some result) = inr g ->
         dict_keys (criteria_scores g) = dict_keys (base_scores (R := Q))
         /\ Forall (fun kv => snd kv == 0) (criteria_scores g))
  /\ (forall submission (result : AIDetectionResult (R := Q)),
         exists g,
           calculate_grade default_config submission (Some result) = inr g)
  /\ ((exists s,
          criterion_score
            (calculate_grade default_config (sample_submission false)
               (Some (sample_detection true (3 # 10)))) "creativity" = Some s
          /\ s == 56)
      /\ (exists s,
             criterion_score
               (calculate_grade default_config (sample_submission false)
                  (Some (sample_detection true (9 # 10)))) "creativity" = Some s
             /\ s == 40))
  /\ (criterion_score
        (calculate_grade default_config (sample_submission false)
           (Some (sample_detection true (py_decimal (3 # 10) : float))))
        "creativity" = Some (py_int 56)
      /\ criterion_score
           (calculate_grade default_config (sample_submission false)
              (Some (sample_detection true (py_decimal (9 # 10) : float))))
           "creativity" = Some (py_int 40)
      /\ criterion_score
           (calculate_grade strict_config (sample_submission false)
              (Some (sample_detection true (py_decimal (9 # 10) : float))))
           "creativity" = Some (py_int 0)).
Proof.
  split; [|split; [|split; [|split]]].
  - intros R number config submission result g Hflag Hg.
    destruct (flagged_grade_inv config submission result g Hflag Hg)
      as (fod & Hfod & Hstep & _).
    exists fod. split; [exact Hfod|]. split; [exact Hstep|].
    intros Hlate Hfalse. unfold late_step in Hstep.
    rewrite Hlate, Hfalse in Hstep. now injection Hstep.
  - intros config submission result g fod Hflag Hfod Htrue Hg.
    destruct (flagged_grade_inv config submission result g Hflag Hg)
      as (fod' & Hfod' & Hstep & _).
    rewrite Hfod in Hfod'. injection Hfod' as <-.
    rewrite Htrue in Hstep. split.
    + unfold late_step in Hstep.
      destruct (late_submission submission).
      * unfold apply_late_penalty in Hstep.
        apply bind_inr in Hstep as (? & _ & Hstep).
        apply bind_inr in Hstep as (? & _ & Hstep).
        apply bind_inr in Hstep as (? & _ & Hstep).
        injection Hstep as <-. reflexivity.
      * injection Hstep as <-. reflexivity.
    + eapply zero_scores_stay_zero; [|exact Hstep].
      unfold map_values, base_scores. repeat constructor.
  - intros submission result.
    destruct (default_config_grades submission (Some result)) as (g & Hg & _).
    now exists g.
  - split; eexists; (split; [vm_compute; reflexivity | reflexivity]).
  - repeat split.
Qed.

(** ** The pipeline *)

Section PipelineClaims.
Context {R : Type} {number : PyNumber R}.

(** C7 (amended).  When discovery finds no submission, [run_pipeline]
    grades nothing, writes no report and returns normally (the script
    logs an error and returns); nothing is raised.  When the submissions
    directory does not exist, [discover_submissions] raises
    [FileNotFoundError] and [run_pipeline] raises it again, before any
    grading and without writing a report. *)
Theorem empty_discovery_returns_without_reports
  (config : dict (json R)) (submissions_dir : string)
  (ai_code_review : StudentSubmission -> detector_run) (completion : list nat) :
  (forall root,
      discover_submissions submissions_dir root = inr [] ->
      run_pipeline config submissions_dir root ai_code_review completion
      = {| run_submissions := []; run_results := [];
           run_artifacts := []; run_outcome := Some (inr tt) |})
  /\ run_pipeline config submissions_dir RootMissing ai_code_review completion
     = {| run_submissions := []; run_results := []; run_artifacts := [];
          run_outcome :=
            Some (inl (FileNotFoundError
                         ("Submissions directory not found: " ++ submissions_dir))) |}.
Proof.
  split; [|reflexivity].
  intros root Hempty. unfold run_pipeline. now rewrite Hempty.
Qed.

End PipelineClaims.

(** C7 (amended) on a directory that holds no code. *)
Lemma empty_discovery_returns_without_reports_witness :
  run_pipeline default_config "submissions" notes_only detector_times_out []
  = {| run_submissions := []; run_results := [];
       run_artifacts := []; run_outcome := Some (inr tt) |}.
Proof.
  apply (proj1 (empty_discovery_returns_without_reports
                  default_config "submissions" detector_times_out [])).
  reflexivity.
Defined.

(** C7 as stated fails: with zero submissions found the run ends by
    returning, not by raising. *)
Lemma empty_discovery_is_not_raised :
  discover_submissions "submissions" notes_only = inr []
  /\ run_outcome
       (run_pipeline default_config "submissions" notes_only detector_times_out [])
     = Some (inr tt)
  /\ ~ exists e,
         run_outcome
           (run_pipeline default_config "submissions" notes_only
              detector_times_out [])
         = Some (inl e).
Proof.
  repeat split. intros [e He]. discriminate He.
Qed.

(** ** The CSV export *)

Section CsvFacts.
Context {R : Type} {number : PyNumber R}.
Implicit Types (results : list (GradingResult (R := R))).

Lemma write_rows_count fieldnames results :
  forall rows, write_rows fieldnames results = (rows, inr tt) ->
  List.length rows = List.length results.
Proof.
  induction results as [|r results IH]; simpl; intros rows H.
  - now injection H as <-.
  - destruct (writerow fieldnames (csv_row r)) as [e|cells]; [discriminate|].
    destruct (write_rows fieldnames results) as [rows' outcome].
    injection H as <- ->. simpl. f_equal. now apply IH.
Qed.

Lemma write_rows_complete fieldnames results :
  Forall (fun r => forallb (fun key => str_in key fieldnames)
                     (dict_keys (csv_row r)) = true) results ->
  exists rows, write_rows fieldnames results = (rows, inr tt).
Proof.
  induction 1 as [|r results Hr _ (rows & IH)]; simpl.
  - now exists [].
  - unfold writerow. rewrite Hr, IH. cbn [ret]. eexists. reflexivity.
Qed.

(** The header of the export: the nine fixed columns, then the criteria
    of the first result. *)
Lemma csv_header_columns (config : dict (json R)) results path file :
  In (CsvFile path file) (fst (_generate_csv_export config results)) ->
  csv_header file
  = fixed_fieldnames ++
    match results with
    | first :: _ => dict_keys (criteria_scores first)
    | [] => []
    end.
Proof.
  unfold _generate_csv_export.
  destruct (output_path config "results_dir" "grades.csv") as [e|filepath];
    simpl; [tauto|].
  destruct (write_rows (csv_fieldnames results) results) as [rows outcome].
  simpl. destruct outcome as [e|[]]; simpl.
  - intros [[= <- <-]|[]]. reflexivity.
  - intros [[= <- <-]|[]]. reflexivity.
Qed.

End CsvFacts.

(** C6, on the batch [failed_then_graded]: the header has the nine fixed
    columns only, the row of the second result is refused by the writer
    ([ValueError]), and the file is left with one data row for two
    results.  With the two results in the other order both rows are
    written. *)
Theorem csv_export_stops_after_failing_result :
  (exists path row,
      _generate_csv_export default_config failed_then_graded
      = ([CsvFile path {| csv_header := fixed_fieldnames; csv_rows := [row] |}],
         inl (ValueError "dict contains fields not in fieldnames"))
      /\ path = "./grading-results/grades.csv"%string)
  /\ (exists path file,
         _generate_csv_export default_config (rev failed_then_graded)
         = ([CsvFile path file], inr tt)
         /\ List.length (csv_rows file) = 2%nat
         /\ csv_header file
            = (fixed_fieldnames ++ dict_keys (base_scores (R := Q)))%list).
Proof.
  split.
  - eexists. eexists. split; vm_compute; reflexivity.
  - eexists. eexists. split; [vm_compute; reflexivity|]. split; reflexivity.
Qed.

(** ** The claims on sample inputs *)

(** C1 (amended) on two submissions, the second finishing first. *)
Lemma process_all_submissions_one_result_each_witness :
  exists results,
    process_all_submissions default_config detector_flags_one [1%nat]
      [failed_submission; sample_submission false] = Some (inr results)
    /\ List.length results
       = List.length [failed_submission; sample_submission false]
    /\ Permutation results
         (map (process_submission default_config detector_flags_one)
              [failed_submission; sample_submission false])
    /\ map g_student_id results
       = as_completed [1%nat]
           (map student_id [failed_submission; sample_submission false]).
Proof.
  apply (proj1 (process_all_submissions_one_result_each default_config
                  detector_flags_one [1%nat]
                  [failed_submission; sample_submission false])).
  reflexivity.
Defined.

(** C1 as stated fails: the claim puts no condition on the configured
    number of workers.  With [parallel_workers] 0 the constructor of the
    pool raises [ValueError] before any task is submitted, and the two
    submissions get no result; with a NaN (which [json.load] reads from
    the literal [NaN]) the constructor passes, no worker is ever started,
    and the call never returns. *)
Lemma zero_workers_give_no_result :
  process_all_submissions no_workers_config detector_flags_one [1%nat]
    [failed_submission; sample_submission false]
  = Some (inl (ValueError "max_workers must be greater than 0"))
  /\ process_all_submissions nan_workers_config (fun _ => RunTimeout) [1%nat]
       [failed_submission; sample_submission false]
     = None.
Proof.
  split; reflexivity.
Qed.

(** C8 on a configuration whose weights add up to zero: grading raises
    [ZeroDivisionError]. *)
Lemma process_submission_absorbs_exceptions_witness :
  process_submission zero_weights_config detector_flags_one (sample_submission false)
  = failing_result (sample_submission false) ZeroDivisionError.
Proof.
  apply (process_submission_absorbs_exceptions zero_weights_config
           detector_flags_one (sample_submission false) ZeroDivisionError).
  right. eexists. split; vm_compute; reflexivity.
Defined.

(** C9 on a flagged submission. *)
Lemma integrity_flag_implies_manual_review_witness :
  requires_manual_review
    (process_submission default_config detector_flags_one (sample_submission false))
  = true.
Proof.
  apply (proj2 (proj2 (integrity_flag_implies_manual_review (R := Q)))).
  reflexivity.
Defined.

(** C10.  For a submission that is not late and a detection result that
    is present but not flagged, [calculate_grade] applies no penalty:
    the criterion scores are the base scores and neither flag is set.
    The scores, the overall score and the letter grade are those obtained
    with no detection result at all, and those obtained with any other
    unflagged detection result: the confidence has no effect.  Under the
    default configuration the result is 82.5, a B-, whatever the
    confidence. *)
Theorem unflagged_detection_applies_no_penalty :
  (forall (R : Type) (number : PyNumber R) (config : dict (json R))
          submission (result : AIDetectionResult),
      is_ai_generated result = false ->
      late_submission submission = false ->
      (forall g,
          calculate_grade config submission (Some result) = inr g ->
          criteria_scores g = base_scores
          /\ academic_integrity_flag g = false
          /\ requires_manual_review g = false)
      /\ (forall g0,
             calculate_grade config submission None = inr g0 ->
             exists g,
               calculate_grade config submission (Some result) = inr g
               /\ criteria_scores g = criteria_scores g0
               /\ overall_score g = overall_score g0
               /\ grade_letter g = grade_letter g0)
      /\ (forall other g,
             is_ai_generated other = false ->
             calculate_grade config submission (Some other) = inr g ->
             exists g',
               calculate_grade config submission (Some result) = inr g'
               /\ criteria_scores g' = criteria_scores g
               /\ overall_score g' = overall_score g
               /\ grade_letter g' = grade_letter g))
  /\ (forall submission (result : AIDetectionResult (R := Q)),
         is_ai_generated result = false ->
         late_submission submission = false ->
         exists g,
           calculate_grade default_config submission (Some result) = inr g
           /\ criteria_scores g = base_scores
           /\ overall_score g == 165 # 2
           /\ grade_letter g = "B-"%string).
Proof.
  split.
  - intros R number config submission result Hflag Hlate.
    apply unflagged_grade_is_unpenalized; assumption.
  - intros submission result Hflag Hlate.
    edestruct (unpenalized_grade default_config submission (Some result)
                 Hflag Hlate)
      as (g & Hg & Hscores & Hoverall & Hletter & _);
      [reflexivity | reflexivity | reflexivity | cbv; reflexivity |].
    exists g. split; [exact Hg|].
    rewrite Hscores, Hoverall, Hletter. repeat split.
Qed.

(** C10 on an unflagged result of confidence 0.95. *)
Lemma unflagged_detection_applies_no_penalty_witness :
  exists g,
    calculate_grade default_config (sample_submission false)
      (Some (sample_detection false (95 # 100))) = inr g
    /\ criteria_scores g = base_scores
    /\ academic_integrity_flag g = false
    /\ requires_manual_review g = false.
Proof.
  destruct (proj2 unflagged_detection_applies_no_penalty
              (sample_submission false) (sample_detection false (95 # 100))
              eq_refl eq_refl) as (g & Hg & _).
  exists g. split; [exact Hg|].
  apply (proj1 (proj1 unflagged_detection_applies_no_penalty Q Q_number
                  default_config (sample_submission false)
                  (sample_detection false (95 # 100)) eq_refl eq_refl) g Hg).
Defined.

(** C4 on a flagged result of confidence 0.3. *)
Lemma detection_penalty_scales_scores_witness :
  exists g,
    calculate_grade default_config (sample_submission false)
      (Some (sample_detection true (3 # 10))) = inr g
    /\ criteria_scores g
       = map_values (fun score => score * (1 - py_min (1 # 2) (3 # 10)))
           base_scores.
Proof.
  assert (Hg : exists g,
             calculate_grade default_config (sample_submission false)
               (Some (sample_detection true (3 # 10))) = inr g)
    by (eexists; vm_compute; reflexivity).
  destruct Hg as [g Hg]. exists g. split; [exact Hg|].
  destruct (proj1 detection_penalty_scales_scores Q Q_number default_config
              (sample_submission false) (sample_detection true (3 # 10)) g
              eq_refl Hg) as (fod & Hfod & _ & Hscaled).
  injection Hfod as <-.
  apply Hscaled; reflexivity.
Defined.

(** ** Further properties of discovery, detection and the reports *)

Section UpdateFacts.
Context {V : Type}.
Implicit Types (d other : dict V) (k : string).

Lemma dict_set_keys_incl k (v : V) d k' :
  In k' (dict_keys (dict_set k v d)) -> k' = k \/ In k' (dict_keys d).
Proof.
  rewrite dict_keys_set. destruct (dict_contains k d); [tauto|].
  rewrite in_app_iff. simpl. intuition.
Qed.

Lemma dict_update_keys_incl other : forall d k,
  In k (dict_keys (dict_update d other)) ->
  In k (dict_keys d) \/ In k (dict_keys other).
Proof.
  unfold dict_update.
  induction other as [|[k0 v0] other IH]; intros d k; simpl.
  - tauto.
  - intros Hin. apply IH in Hin as [Hin|Hin]; [|tauto].
    apply dict_set_keys_incl in Hin as [->|Hin]; tauto.
Qed.

End UpdateFacts.

Section ReportFacts.
Context {R : Type} {number : PyNumber R}.
Implicit Types (config : dict (json R)) (results : list (GradingResult (R := R))).

Lemma csv_row_keys (r : GradingResult) key :
  In key (dict_keys (csv_row r)) ->
  In key fixed_fieldnames \/ In key (dict_keys (criteria_scores r)).
Proof.
  unfold csv_row. intros Hin.
  apply dict_update_keys_incl in Hin as [Hin|Hin].
  - left. exact Hin.
  - right. unfold dict_keys in *. rewrite map_map in Hin. exact Hin.
Qed.

(** When the criteria of every result are among those of the first, as
    they are when every result comes out of [calculate_grade], the
    export has one data row per result and raises nothing. *)
Lemma csv_rows_for_listed_criteria config results path :
  output_path config "results_dir" "grades.csv" = inr path ->
  Forall (fun r => incl (dict_keys (criteria_scores r))
                        (csv_fieldnames results)) results ->
  exists rows,
    _generate_csv_export config results
    = ([CsvFile path {| csv_header := csv_fieldnames results; csv_rows := rows |}],
       inr tt)
    /\ List.length rows = List.length results.
Proof.
  intros Hpath Hkeys.
  destruct (write_rows_complete (csv_fieldnames results) results) as (rows & Hrows).
  { rewrite Forall_forall in *. intros r Hr.
    apply forallb_forall. intros key Hin. apply str_in_spec.
    apply csv_row_keys in Hin as [Hin|Hin].
    - unfold csv_fieldnames. apply in_or_app. now left.
    - now apply (Hkeys r Hr). }
  exists rows. split.
  - unfold _generate_csv_export. rewrite Hpath. simpl.
    rewrite Hrows. reflexivity.
  - now apply (write_rows_count (csv_fieldnames results)).
Qed.

(** The integrity report is written only when some result is flagged,
    and then has one section per flagged result, in the order of the
    results. *)
Lemma integrity_sections_per_flagged config results :
  (filter academic_integrity_flag results = [] ->
   _generate_integrity_report config results = ([], inr tt))
  /\ (forall path,
         filter academic_integrity_flag results <> [] ->
         output_path config "reports_dir" "academic_integrity_report.md"
         = inr path ->
         Forall (fun r => academic_integrity_flag r = true ->
                          ai_detection r <> None) results ->
         exists sections,
           _generate_integrity_report config results
           = ([IntegrityFile path (inr sections)], inr tt)
           /\ map is_student_id sections
              = map g_student_id (filter academic_integrity_flag results)).
Proof.
  split.
  - intros Hnone. unfold _generate_integrity_report. now rewrite Hnone.
  - intros path Hsome Hpath Hdet.
    assert (Hsections : exists sections,
               integrity_content (filter academic_integrity_flag results)
               = inr sections
               /\ map is_student_id sections
                  = map g_student_id (filter academic_integrity_flag results)).
    { clear Hsome. unfold integrity_content.
      induction Hdet as [|r results Hr _ (sections & IH & Hids)]; simpl.
      - now exists [].
      - destruct (academic_integrity_flag r) eqn:Hflag; [|now exists sections].
        simpl. unfold ai_info at 1.
        destruct (ai_detection r) as [info|]; [|now specialize (Hr eq_refl)].
        cbn [bind ret]. rewrite IH. cbn [bind ret].
        eexists. split; [reflexivity|]. simpl. now rewrite Hids. }
    destruct Hsections as (sections & Hcontent & Hids).
    exists sections. split; [|exact Hids].
    unfold _generate_integrity_report.
    destruct (filter academic_integrity_flag results) as [|r flagged_results];
      [congruence|].
    rewrite Hpath, Hcontent. reflexivity.
Qed.





End ReportFacts.

(** Lateness is never detected: every discovered submission is on time,
    so the late penalty is never applied to one. *)
Lemma discovery_never_late submissions_dir root submissions :
  discover_submissions submissions_dir root = inr submissions ->
  Forall (fun s => late_submission s = false) submissions.
Proof.
  destruct root as [|entries]; simpl; [discriminate|].
  intros [= <-]. apply Forall_forall. intros s Hin.
  apply in_flat_map in Hin as (entry & _ & Hin).
  unfold discover_entry in Hin.
  destruct (negb (entry_is_dir entry)); [destruct Hin|].
  destruct (_has_code_files entry); [|destruct Hin].
  destruct Hin as [<-|[]]. reflexivity.
Qed.

(** On exact rationals the risk level of a report follows the thresholds
    0.9, 0.8 and 0.6, each inclusive.  (On binary64 the thresholds are
    the doubles nearest to them, which are not these rationals.) *)
Lemma risk_level_thresholds (confidence : Q) :
  (9 # 10 <= confidence -> risk_level_of confidence = "CRITICAL"%string)
  /\ (8 # 10 <= confidence < 9 # 10 -> risk_level_of confidence = "HIGH"%string)
  /\ (6 # 10 <= confidence < 8 # 10 -> risk_level_of confidence = "MEDIUM"%string)
  /\ (confidence < 6 # 10 -> risk_level_of confidence = "LOW"%string).
Proof.
  unfold risk_level_of, ge; cbn [py_le py_decimal Q_number].
  split_on_thresholds;
    repeat split; intros; try reflexivity; exfalso; lra.
Qed.

(** ** A run under the default configuration *)

Section DefaultRun.
Implicit Types (results : list (GradingResult (R := Q))).














End DefaultRun.

(** X6.  Three submissions, one of them flagged with
    confidence 0.95, under the default configuration: the summary counts
    one integrity alert and one manual review, its grade table adds up
    to three, and the integrity report has one section, for the flagged
    student, whose score is 41.25, an F. *)
Lemma three_submissions_one_flagged :
  let run :=
    run_pipeline default_config "submissions" class_folder detector_flags_one
      [2%nat; 0%nat; 0%nat] in
  run_outcome run = Some (inr tt)
  /\ map student_id (run_submissions run)
     = ["s001_doe_jane"; "s003_kim_lee"; "s004-ray-pat"]%string
  /\ map g_student_id (run_results run)
     = ["s003_kim_lee"; "s004-ray-pat"; "s001_doe_jane"]%string
  /\ map grade_letter (run_results run) = ["B-"; "B-"; "F"]%string
  /\ option_map ai_flagged (summary_of run) = Some 1%nat
  /\ option_map manual_review_needed (summary_of run) = Some 1%nat
  /\ option_map
       (fun content =>
          list_sum (map (fun row => snd (fst row)) (grade_distribution content)))
       (summary_of run) = Some 3%nat
  /\ map (fun section =>
            (is_student_id section, Qred (is_overall_score section),
             is_grade_letter section, is_risk_level section))
         (integrity_sections_of run)
     = [("s001_doe_jane", 165 # 4, "F", "CRITICAL")]%string.
Proof. vm_compute. repeat split. Qed.

(** ** Further properties, as stated *)

Section FurtherClaims.
Context {R : Type} {number : PyNumber R}.

(** X1.  When the criteria of every result are among the field names of
    the export (the nine fixed columns, then the criteria of the first
    result), the export has one data row per result and raises nothing. *)
Theorem csv_export_one_row_per_result
  (config : dict (json R)) (results : list GradingResult) (path : string) :
  output_path config "results_dir" "grades.csv" = inr path ->
  Forall (fun r => incl (dict_keys (criteria_scores r))
                        (csv_fieldnames results)) results ->
  exists rows,
    _generate_csv_export config results
    = ([CsvFile path {| csv_header := csv_fieldnames results; csv_rows := rows |}],
       inr tt)
    /\ List.length rows = List.length results.
Proof.
  intros Hpath Hkeys.
  destruct (csv_rows_for_listed_criteria config results path Hpath Hkeys)
    as (rows & Hexport & Hcount).
  exists rows. split; assumption.
Qed.

(** X2.  The integrity report is written only when some result is
    flagged, and then has one section per flagged result, in the order of
    the results. *)
Theorem integrity_report_sections
  (config : dict (json R)) (results : list GradingResult) :
  (filter academic_integrity_flag results = [] ->
   _generate_integrity_report config results = ([], inr tt))
  /\ (forall path,
         filter academic_integrity_flag results <> [] ->
         output_path config "reports_dir" "academic_integrity_report.md"
         = inr path ->
         Forall (fun r => academic_integrity_flag r = true ->
                          ai_detection r <> None) results ->
         exists sections,
           _generate_integrity_report config results
           = ([IntegrityFile path (inr sections)], inr tt)
           /\ List.length sections
              = count_where academic_integrity_flag results
           /\ map is_student_id sections
              = map g_student_id (filter academic_integrity_flag results)).
Proof.
  destruct (integrity_sections_per_flagged config results) as [Hnone Hsome].
  split; [exact Hnone|].
  intros path Hflagged Hpath Hdetection.
  destruct (Hsome path Hflagged Hpath Hdetection) as (sections & Hreport & Hids).
  exists sections. split; [exact Hreport|]. split; [|exact Hids].
  unfold count_where.
  rewrite <- (length_map is_student_id), Hids. apply length_map.
Qed.

End FurtherClaims.

(** X3.  Lateness is never detected: every discovered submission is on
    time, so the late penalty is never applied to one. *)
Theorem discovered_submissions_are_on_time
  (submissions_dir : string) (root : submissions_root)
  (submissions : list StudentSubmission) :
  discover_submissions submissions_dir root = inr submissions ->
  Forall (fun s => late_submission s = false) submissions.
Proof.
  intros Hfound. exact (discovery_never_late submissions_dir root submissions Hfound).
Qed.

(** X1 on a graded result followed by a failing one. *)
Lemma csv_export_one_row_per_result_witness :
  exists rows,
    _generate_csv_export default_config (rev failed_then_graded)
    = ([CsvFile "./grading-results/grades.csv"
          {| csv_header := csv_fieldnames (rev failed_then_graded);
             csv_rows := rows |}],
       inr tt)
    /\ List.length rows = List.length (rev failed_then_graded).
Proof.
  apply (csv_export_one_row_per_result default_config (rev failed_then_graded)
           "./grading-results/grades.csv").
  - reflexivity.
  - cbv [rev failed_then_graded app].
    constructor; [|constructor; [|constructor]];
      intros key Hin; vm_compute in Hin; vm_compute; tauto.
Defined.

(** X3 on the class folder. *)
Lemma discovered_submissions_are_on_time_witness :
  Forall (fun s => late_submission s = false)
         (flat_map discover_entry class_entries).
Proof.
  apply (discovered_submissions_are_on_time "submissions" class_folder).
  reflexivity.
Defined.


(** ** Detection: how a run of the detector is read *)

Section DetectionFacts.
Context {R : Type} {number : PyNumber R}.
Implicit Types (config : dict (json R)) (submission : StudentSubmission).

Lemma run_ai_detection_returns config
  (ai_code_review : StudentSubmission -> detector_run) submission enabled :
  config_item config "ai_detection" "enabled" = inr enabled ->
  run_ai_detection config ai_code_review submission
  = inr (if truthy enabled
         then match detection_attempt config (ai_code_review submission) with
              | inr result => result
              | inl _ => None
              end
         else None).
Proof.
  intros Henabled. unfold run_ai_detection. rewrite Henabled. cbn [bind].
  now destruct (truthy enabled).
Qed.

Lemma detection_attempt_some config (run : detector_run) result :
  detection_attempt config run = inr (Some result) ->
  (exists data, run = RunCompleted (OutputDocument data)
                /\ result = parse_report data)
  /\ (exists v, config_item config "ai_detection" "threshold" = inr v)
  /\ (exists v, config_item config "ai_detection" "analyzers" = inr v)
  /\ (exists v, config_item config "processing" "timeout_seconds" = inr v).
Proof.
  unfold detection_attempt. intros H.
  apply bind_inr in H as (v1 & H1 & H).
  apply bind_inr in H as (v2 & H2 & H).
  apply bind_inr in H as (v3 & H3 & H).
  repeat split; eauto.
  destruct run as [|e|[|e|data]]; try discriminate.
  injection H as <-. now exists data.
Qed.

(** X7.  Once the switch [ai_detection.enabled] can be read,
    [run_ai_detection] raises nothing: a timeout, a failure of the
    command, a missing or unreadable output file and a missing detection
    setting all give [None], and so does a switch that is off.  A result
    is returned only for a run that completed with a report, it is the
    parsed report, and its risk level is the one of its confidence. *)
Theorem detection_failures_give_no_result config
  (ai_code_review : StudentSubmission -> detector_run) submission enabled :
  config_item config "ai_detection" "enabled" = inr enabled ->
  exists outcome,
    run_ai_detection config ai_code_review submission = inr outcome
    /\ (truthy enabled = false -> outcome = None)
    /\ (ai_code_review submission = RunTimeout -> outcome = None)
    /\ (forall e, ai_code_review submission = RunFailed e -> outcome = None)
    /\ (ai_code_review submission = RunCompleted NoOutputFile -> outcome = None)
    /\ (forall e, ai_code_review submission = RunCompleted (UnreadableOutput e) ->
                  outcome = None)
    /\ (forall e, config_item config "ai_detection" "threshold" = inl e ->
                  outcome = None)
    /\ (forall e, config_item config "ai_detection" "analyzers" = inl e ->
                  outcome = None)
    /\ (forall e, config_item config "processing" "timeout_seconds" = inl e ->
                  outcome = None)
    /\ (forall result,
           outcome = Some result ->
           truthy enabled = true
           /\ risk_level result = risk_level_of (confidence_score result)
           /\ exists data,
                ai_code_review submission = RunCompleted (OutputDocument data)
                /\ result = parse_report data).
Proof.
  intros Henabled. eexists. split.
  { exact (run_ai_detection_returns config ai_code_review submission enabled
             Henabled). }
  destruct (truthy enabled) eqn:Htruthy;
    [|repeat split; try reflexivity; discriminate].
  destruct (detection_attempt config (ai_code_review submission))
    as [e|[result|]] eqn:E;
    try (repeat split; try reflexivity; discriminate).
  apply detection_attempt_some in E
    as ((data & Hrun & Hresult) & (v1 & H1) & (v2 & H2) & (v3 & H3)).
  repeat split; try congruence.
  - injection H as <-. subst result. reflexivity.
  - exists data. injection H as <-. split; assumption.
Qed.

End DetectionFacts.

Section DetectionSwitch.
Context {R : Type} {number : PyNumber R}.
Implicit Types (config : dict (json R)) (submission : StudentSubmission).

Lemma grade_without_detection config submission :
  academic_integrity_flag
    (match calculate_grade config submission None with
     | inr g => g
     | inl e => failing_result submission e
     end) = false
  /\ ai_detection
       (match calculate_grade config submission None with
        | inr g => g
        | inl e => failing_result submission e
        end) = None.
Proof.
  destruct (calculate_grade config submission None) as [e|g] eqn:E.
  - split; reflexivity.
  - apply calculate_grade_inv in E
      as (? & ? & ? & ? & ? & ? & ? & _ & _ & _ & _ & _ & _ & _ & ->).
    split; reflexivity.
Qed.

(** X8.  With detection switched off the detector is not consulted: the
    result of a submission is the same whatever the detector would have
    done, it holds no detection result and it is never flagged. *)
Theorem disabled_detection_ignores_detector config submission enabled :
  config_item config "ai_detection" "enabled" = inr enabled ->
  truthy enabled = false ->
  forall detector other_detector : StudentSubmission -> detector_run,
    process_submission config detector submission
    = process_submission config other_detector submission
    /\ ai_detection (process_submission config detector submission) = None
    /\ academic_integrity_flag (process_submission config detector submission)
       = false.
Proof.
  intros Henabled Hoff detector other_detector.
  unfold process_submission.
  rewrite !(run_ai_detection_returns config _ submission enabled Henabled).
  rewrite Hoff. cbn [bind].
  destruct (grade_without_detection config submission) as [Hflag Hnone].
  repeat split; assumption.
Qed.

End DetectionSwitch.

(** X8 on the flagging detector and the one that times out. *)
Lemma disabled_detection_ignores_detector_witness :
  process_submission detection_off_config detector_flags_one (sample_submission false)
  = process_submission detection_off_config detector_times_out
      (sample_submission false)
  /\ ai_detection
       (process_submission detection_off_config detector_flags_one
          (sample_submission false)) = None
  /\ academic_integrity_flag
       (process_submission detection_off_config detector_flags_one
          (sample_submission false)) = false.
Proof.
  apply (disabled_detection_ignores_detector detection_off_config
           (sample_submission false) (JBool false)); reflexivity.
Defined.

(** X7 on the detector that times out, under the default configuration. *)
Lemma detection_failures_give_no_result_witness :
  run_ai_detection default_config detector_times_out (sample_submission false)
  = inr None.
Proof.
  destruct (detection_failures_give_no_result default_config detector_times_out
              (sample_submission false) (JBool true) eq_refl)
    as (outcome & Hrun & _ & Htimeout & _).
  rewrite Hrun. f_equal. apply Htimeout. reflexivity.
Defined.

Section FlagFacts.
Context {R : Type} {number : PyNumber R}.
Implicit Types (config : dict (json R)) (submission : StudentSubmission).


End FlagFacts.

Section DefaultFlags.


End DefaultFlags.


(** ** Discovery *)

Section DiscoveryFacts.

Lemma discover_entry_accepted (entry : dir_entry) :
  discover_entry entry
  = if accepted entry
    then [ {| student_id := entry_name entry;
              student_name := _extract_student_name (entry_name entry);
              submission_path := entry_path entry;
              submission_time := entry_mtime entry;
              late_submission := false |} ]
    else [].
Proof.
  unfold discover_entry, accepted.
  destruct (entry_is_dir entry); simpl; [|reflexivity].
  now destruct (_has_code_files entry).
Qed.

Lemma discovered_fields {A} (field : StudentSubmission -> A)
  (of_entry : dir_entry -> A) (entries : list dir_entry) :
  (forall entry late,
      field {| student_id := entry_name entry;
               student_name := _extract_student_name (entry_name entry);
               submission_path := entry_path entry;
               submission_time := entry_mtime entry;
               late_submission := late |} = of_entry entry) ->
  map field (flat_map discover_entry entries)
  = map of_entry (filter accepted entries).
Proof.
  intros Hfield. induction entries as [|entry entries IH]; simpl; [reflexivity|].
  rewrite map_app, IH, discover_entry_accepted.
  destruct (accepted entry); simpl; [|reflexivity].
  now rewrite Hfield.
Qed.

(** X10.  On a directory that exists, [discover_submissions] returns one
    submission for each entry that is a directory holding a file with a
    code extension, in the order of the listing and with the entry's
    name as student id; plain files and folders without code are left
    out, and distinct folder names give distinct student ids. *)
Theorem discovery_keeps_code_folders (submissions_dir : string)
  (entries : list dir_entry) :
  exists submissions,
    discover_submissions submissions_dir (RootListing entries) = inr submissions
    /\ map student_id submissions = map entry_name (filter accepted entries)
    /\ map submission_path submissions = map entry_path (filter accepted entries)
    /\ map submission_time submissions = map entry_mtime (filter accepted entries)
    /\ map student_name submissions
       = map (fun entry => _extract_student_name (entry_name entry))
             (filter accepted entries)
    /\ (List.length submissions <= List.length entries)%nat
    /\ (NoDup (map entry_name entries) -> NoDup (map student_id submissions)).
Proof.
  exists (flat_map discover_entry entries). split; [reflexivity|].
  assert (Hids : map student_id (flat_map discover_entry entries)
                 = map entry_name (filter accepted entries))
    by now apply discovered_fields.
  repeat split.
  - exact Hids.
  - now apply discovered_fields.
  - now apply discovered_fields.
  - now apply discovered_fields.
  - rewrite <- (length_map student_id), Hids, length_map.
    apply filter_length_le.
  - intros Hnd. rewrite Hids. clear Hids.
    induction entries as [|entry entries IH]; simpl; [constructor|].
    inversion Hnd as [|? ? Hnotin Hnd']; subst.
    destruct (accepted entry); simpl; [|now apply IH].
    constructor; [|now apply IH].
    intros Hin. apply Hnotin. apply in_map_iff in Hin as (e & He & Hin).
    apply filter_In in Hin as [Hin _]. apply in_map_iff. now exists e.
Qed.

Lemma ascii_lower_upper (c : ascii) : ascii_lower (ascii_upper c) = ascii_lower c.
Proof. destruct c as [[] [] [] [] [] [] [] []]; reflexivity. Qed.

Lemma ascii_lower_lower (c : ascii) : ascii_lower (ascii_lower c) = ascii_lower c.
Proof. destruct c as [[] [] [] [] [] [] [] []]; reflexivity. Qed.

Lemma lower_upper (s : string) : lower (str_map ascii_upper s) = lower s.
Proof.
  unfold lower. induction s as [|c s IH]; simpl; [reflexivity|].
  now rewrite ascii_lower_upper, IH.
Qed.

Lemma lower_lower (s : string) : lower (lower s) = lower s.
Proof.
  unfold lower. induction s as [|c s IH]; simpl; [reflexivity|].
  now rewrite ascii_lower_lower, IH.
Qed.

Lemma has_code_files_by_lower (directory other : dir_entry) :
  map lower (entry_suffixes other) = map lower (entry_suffixes directory) ->
  _has_code_files other = _has_code_files directory.
Proof.
  unfold _has_code_files. intros Hsame.
  assert (Hmap : forall suffixes,
             existsb (fun suffix => str_in (lower suffix) code_extensions) suffixes
             = existsb (fun l => str_in l code_extensions) (map lower suffixes)).
  { induction suffixes as [|suffix suffixes IH]; cbn [existsb map];
      [reflexivity | now rewrite IH]. }
  now rewrite !Hmap, Hsame.
Qed.

(** X11.  Whether a folder holds code does not depend on the case of the
    file extensions: two folders whose extensions agree up to case are
    both accepted or both rejected, so [.PY] counts like [.py]. *)
Theorem code_extensions_ignore_case (directory other : dir_entry) :
  map lower (entry_suffixes other) = map lower (entry_suffixes directory) ->
  _has_code_files other = _has_code_files directory
  /\ (entry_is_dir other = entry_is_dir directory ->
      accepted other = accepted directory).
Proof.
  intros Hsame.
  pose proof (has_code_files_by_lower directory other Hsame) as Hcode.
  split; [exact Hcode|].
  intros Hdir. unfold accepted. now rewrite Hdir, Hcode.
Qed.

End DiscoveryFacts.

(** ** Student names *)

Section NameFacts.

Lemma append_nil_r (s : string) : (s ++ "")%string = s.
Proof. induction s as [|c s IH]; simpl; [reflexivity | now rewrite IH]. Qed.

Lemma append_assoc (a b c : string) : ((a ++ b) ++ c)%string = (a ++ (b ++ c))%string.
Proof. induction a as [|x a IH]; simpl; [reflexivity | now rewrite IH]. Qed.

Lemma append_not_empty (w t : string) :
  String.eqb t "" = false -> String.eqb (w ++ t) "" = false.
Proof.
  destruct w; simpl; [auto | reflexivity].
Qed.

Lemma split_from_plain (t : string) :
  plain_chars t = true ->
  forall word rest,
    split_from word (t ++ rest) = split_from (word ++ t) rest.
Proof.
  induction t as [|c t IH]; intros Hplain word rest; simpl.
  - now rewrite append_nil_r.
  - simpl in Hplain.
    apply andb_true_iff in Hplain as [Hc Hplain].
    apply andb_true_iff in Hc as [Hc _].
    apply andb_true_iff in Hc as [Hc _].
    apply andb_true_iff in Hc as [Hc _].
    apply negb_true_iff in Hc. rewrite Hc.
    rewrite IH by assumption. now rewrite append_assoc.
Qed.

Lemma split_tokens (t : string) (ts : list string) :
  plain_token t = true ->
  Forall (fun token => plain_token token = true) ts ->
  split_from "" (String.concat " " (t :: ts)) = t :: ts.
Proof.
  intros Ht Hts. revert t Ht.
  induction Hts as [|t2 ts Ht2 _ IH]; intros t Ht;
    unfold plain_token in Ht; apply andb_true_iff in Ht as [Hne Hplain];
    apply negb_true_iff in Hne.
  - simpl. rewrite <- (append_nil_r t) at 1.
    rewrite split_from_plain by assumption. simpl. now rewrite Hne.
  - change (String.concat " " (t :: t2 :: ts))
      with (t ++ " " ++ String.concat " " (t2 :: ts))%string.
    rewrite split_from_plain by assumption.
    cbn [append split_from]. change (is_space " ") with true. cbn iota.
    rewrite Hne. now rewrite IH.
Qed.

Lemma str_map_append (f : ascii -> ascii) (a b : string) :
  str_map f (a ++ b) = (str_map f a ++ str_map f b)%string.
Proof. induction a as [|c a IH]; simpl; [reflexivity | now rewrite IH]. Qed.

Lemma str_map_concat (f : ascii -> ascii) (sep : string) (ls : list string) :
  str_map f (String.concat sep ls) = String.concat (str_map f sep) (map (str_map f) ls).
Proof.
  induction ls as [|t ts IH]; [reflexivity|].
  destruct ts as [|t2 ts]; [reflexivity|].
  change (String.concat sep (t :: t2 :: ts))
    with (t ++ sep ++ String.concat sep (t2 :: ts))%string.
  rewrite !str_map_append, IH. reflexivity.
Qed.

Lemma replace_char_plain (old new : ascii) (t : string) :
  (old = "_" \/ old = "-")%char ->
  plain_chars t = true -> replace_char old new t = t.
Proof.
  intros Hold. unfold replace_char.
  induction t as [|c t IH]; simpl; [reflexivity|].
  intros Hplain.
  apply andb_true_iff in Hplain as [Hc Hplain].
  apply andb_true_iff in Hc as [Hc _].
  apply andb_true_iff in Hc as [Hc Hhyphen].
  apply andb_true_iff in Hc as [_ Hunder].
  apply negb_true_iff in Hhyphen, Hunder.
  rewrite IH by assumption.
  destruct Hold as [-> | ->]; [rewrite Hunder | rewrite Hhyphen]; reflexivity.
Qed.

Lemma replace_char_tokens (old new : ascii) (tokens : list string) :
  (old = "_" \/ old = "-")%char ->
  Forall (fun token => plain_token token = true) tokens ->
  map (str_map (fun c => if Ascii.eqb c old then new else c)) tokens = tokens.
Proof.
  intros Hold. induction 1 as [|t ts Ht _ IH]; simpl; [reflexivity|].
  unfold plain_token in Ht. apply andb_true_iff in Ht as [_ Hplain].
  rewrite IH. f_equal. now apply (replace_char_plain old new t).
Qed.

(** X12.  For a folder name made of ASCII tokens joined by underscores,
    or by hyphens, the student name is the tokens after the first joined
    by single blanks; a name of one token is returned as it is. *)
Theorem student_name_drops_first_token (sep : string) (id : string)
  (rest : list string) :
  sep = "_" \/ sep = "-" ->
  plain_token id = true ->
  Forall (fun token => plain_token token = true) rest ->
  _extract_student_name (String.concat sep (id :: rest))
  = match rest with
    | [] => id
    | _ => String.concat " " rest
    end.
Proof.
  intros Hsep Hid Hrest.
  assert (Htokens : Forall (fun token => plain_token token = true) (id :: rest))
    by now constructor.
  assert (Hnormal :
            replace_char "-" " " (replace_char "_" " " (String.concat sep (id :: rest)))
            = String.concat " " (id :: rest)).
  { unfold replace_char.
    rewrite str_map_concat, (replace_char_tokens "_" " " (id :: rest)) by auto.
    rewrite str_map_concat, (replace_char_tokens "-" " " (id :: rest)) by auto.
    destruct Hsep as [-> | ->]; reflexivity. }
  unfold _extract_student_name, split. rewrite Hnormal.
  rewrite split_tokens by assumption.
  destruct rest as [|t ts]; reflexivity.
Qed.

End NameFacts.

(** X12 on the folder name [s001_doe_jane]. *)
Lemma student_name_drops_first_token_witness :
  _extract_student_name "s001_doe_jane" = "doe jane".
Proof.
  apply (student_name_drops_first_token "_" "s001" ["doe"; "jane"]).
  - now left.
  - reflexivity.
  - repeat constructor.
Defined.

(** ** Grading: how the penalties act on the overall score *)

Section SameScores.
Context {R : Type} {number : PyNumber R}.
Implicit Types (config : dict (json R)) (submission : StudentSubmission).

Lemma feedback_after_late_step config submission
  (ai_result : option AIDetectionResult) (before after scores : dict R) overall :
  late_step config submission before = inr after ->
  exists text,
    _generate_feedback config submission ai_result scores overall = inr text.
Proof.
  unfold late_step. destruct (late_submission submission) eqn:Hlate.
  - unfold apply_late_penalty. intros H.
    apply bind_inr in H as (penalty & Hpenalty & _).
    unfold _generate_feedback. rewrite Hlate, Hpenalty. cbn [bind ret].
    eexists. reflexivity.
  - intros _. now apply feedback_when_not_late.
Qed.

Lemma same_detection_step_same_scores config submission
  (ai_result other : option AIDetectionResult) g :
  detection_step config other = detection_step config ai_result ->
  calculate_grade config submission ai_result = inr g ->
  exists g',
    calculate_grade config submission other = inr g'
    /\ criteria_scores g' = criteria_scores g
    /\ overall_score g' = overall_score g
    /\ grade_letter g' = grade_letter g.
Proof.
  intros Hsame Hg.
  apply calculate_grade_inv in Hg
    as (penalized & scores & cw & weights & total & overall & text
        & H1 & H2 & H3 & H4 & H5 & H6 & _ & ->).
  destruct (feedback_after_late_step config submission other penalized scores
              scores overall H2) as (text' & Htext).
  unfold calculate_grade.
  rewrite Hsame, H1. cbn [bind]. rewrite H2. cbn [bind]. rewrite H3. cbn [bind].
  rewrite H4. cbn [bind]. rewrite H5. cbn [bind]. rewrite H6. cbn [bind].
  rewrite Htext. cbn [bind ret].
  eexists. split; [reflexivity|]. repeat split.
Qed.

(** X13.  The detection penalty is capped: once the confidence is not
    below 0.5, it has no further effect.  Two flagged detection results
    whose confidences both lie between 0.5 and 1 give the same criterion
    scores, overall score and letter grade, under every configuration
    and number model. *)
Theorem detection_penalty_is_capped config submission
  (result other : AIDetectionResult) g :
  is_ai_generated result = true ->
  is_ai_generated other = true ->
  py_lt (confidence_score result) (py_decimal (1 # 2)) = false ->
  py_le (confidence_score result) (py_int 1) = true ->
  py_lt (confidence_score other) (py_decimal (1 # 2)) = false ->
  py_le (confidence_score other) (py_int 1) = true ->
  calculate_grade config submission (Some result) = inr g ->
  exists g',
    calculate_grade config submission (Some other) = inr g'
    /\ criteria_scores g' = criteria_scores g
    /\ overall_score g' = overall_score g
    /\ grade_letter g' = grade_letter g.
Proof.
  intros Hflag Hflag' Hcap _ Hcap' _ Hg.
  apply (same_detection_step_same_scores config submission (Some result)); auto.
  unfold detection_step, apply_detection_penalty, py_min.
  now rewrite Hflag, Hflag', Hcap, Hcap'.
Qed.

End SameScores.

(** X13 on the confidences 0.5 and 0.95. *)
Lemma detection_penalty_is_capped_witness :
  exists g',
    calculate_grade default_config (sample_submission false)
      (Some (sample_detection true (95 # 100))) = inr g'
    /\ Qred (overall_score g') = 165 # 4.
Proof.
  assert (Hg : exists g,
             calculate_grade default_config (sample_submission false)
               (Some (sample_detection true (1 # 2))) = inr g
             /\ Qred (overall_score g) = 165 # 4)
    by (eexists; split; vm_compute; reflexivity).
  destruct Hg as (g & Hg & Hscore).
  destruct (detection_penalty_is_capped (number := Q_number) default_config
              (sample_submission false)
              (sample_detection true (1 # 2)) (sample_detection true (95 # 100))
              g eq_refl eq_refl eq_refl eq_refl eq_refl eq_refl Hg)
    as (g' & Hg' & _ & Hoverall & _).
  exists g'. split; [exact Hg'|]. now rewrite Hoverall.
Defined.

(** ** Grading: the two penalties as factors *)

Section PenaltyFactors.
Implicit Types (weights : dict (json Q)) (scores : dict Q) (config : dict (json Q)).

Lemma scaled_by_one scores : scaled_by 1 scores scores.
Proof.
  unfold scaled_by. induction scores as [|kv scores IH]; constructor; auto.
  split; [reflexivity | ring].
Qed.

Lemma map_values_scaled (f : Q -> Q) (factor : Q) scores :
  (forall s, f s == s * factor) ->
  scaled_by factor (map_values f scores) scores.
Proof.
  intros Hf. unfold scaled_by, map_values.
  induction scores as [|kv scores IH]; simpl; constructor; auto.
  split; [reflexivity | apply Hf].
Qed.

Lemma scaled_by_twice (first second : Q) scores middle reference :
  scaled_by second scores middle ->
  scaled_by first middle reference ->
  scaled_by (first * second) scores reference.
Proof.
  unfold scaled_by. intros H. revert reference.
  induction H as [|kv kv1 scores middle [Hk Hv] _ IH]; intros reference Hm;
    inversion Hm as [|? kv0 ? reference' [Hk' Hv'] Hrest]; subst; constructor.
  - split; [congruence|]. rewrite Hv, Hv'. ring.
  - now apply IH.
Qed.

Lemma weighted_mean_scaled weights (total factor : Q) scores reference :
  scaled_by factor scores reference ->
  weighted_mean weights total scores
  == weighted_mean weights total reference * factor.
Proof.
  unfold scaled_by.
  induction 1 as [|kv kv0 scores reference [Hk Hv] _ IH]; simpl.
  - ring.
  - rewrite IH, Hk, Hv. ring.
Qed.

Lemma detection_step_scaled config (ai_result : option AIDetectionResult)
  fail_on_detection penalized :
  config_item config "ai_detection" "fail_on_detection" = inr fail_on_detection ->
  detection_step config ai_result = inr penalized ->
  scaled_by (detection_factor (truthy fail_on_detection) ai_result)
            penalized base_scores.
Proof.
  intros Hfod. unfold detection_step, detection_factor.
  destruct ai_result as [result|];
    [destruct (is_ai_generated result)|];
    try (intros [= <-]; apply scaled_by_one).
  unfold apply_detection_penalty. rewrite Hfod. cbn [bind].
  destruct (truthy fail_on_detection); intros [= <-].
  - refine (map_values_scaled (fun _ => py_int 0) 0 base_scores _).
    intros s. cbn [py_int Q_number]. unfold inject_Z. ring.
  - refine (map_values_scaled
              (fun score =>
                 py_mul score
                   (py_sub (py_int 1)
                      (py_min (py_decimal (1 # 2)) (confidence_score result))))
              (1 - py_min (1 # 2) (confidence_score result)) base_scores _).
    intros s. cbn [py_mul py_sub py_int py_decimal Q_number]. unfold inject_Z.
    reflexivity.
Qed.

Lemma late_step_scaled config submission (late_penalty : Q) scores penalized :
  config_item config "assignment" "late_penalty" = inr (JNum late_penalty) ->
  late_step config submission scores = inr penalized ->
  scaled_by (late_factor (late_submission submission) late_penalty)
            penalized scores.
Proof.
  intros Hp. unfold late_step, late_factor.
  destruct (late_submission submission);
    [|intros [= <-]; apply scaled_by_one].
  unfold apply_late_penalty. rewrite Hp. cbn [bind as_number ret].
  unfold truediv. cbn [py_is_zero py_int Q_number].
  change (Qeq_bool (inject_Z 100) 0) with false. cbn [bind ret].
  intros [= <-].
  refine (map_values_scaled
            (fun score =>
               py_mul score (py_sub (py_int 1) (py_quot late_penalty (py_int 100))))
            (1 - late_penalty / 100) scores _).
  intros s. cbn [py_mul py_sub py_int py_quot Q_number]. unfold inject_Z.
  reflexivity.
Qed.

(** With weights that are non-negative numbers of positive sum, the
    overall score is the weighted mean of the criterion scores. *)
Lemma calculate_grade_exact config (fail_on_detection : json Q)
  (late_penalty : Q) weights :
  config_item config "ai_detection" "fail_on_detection" = inr fail_on_detection ->
  config_item config "assignment" "late_penalty" = inr (JNum late_penalty) ->
  config_item config "grading" "criteria" = inr (JObj weights) ->
  weights_non_negative weights ->
  0 < total_of weights ->
  exists total,
    total == total_of weights
    /\ forall submission (ai_result : option AIDetectionResult),
         exists g penalized,
           calculate_grade config submission ai_result = inr g
           /\ detection_step config ai_result = inr penalized
           /\ late_step config submission penalized = inr (criteria_scores g)
           /\ overall_score g
              == weighted_mean weights total (criteria_scores g).
Proof.
  intros Hfod Hlate Hcrit Hw Htotal.
  destruct (sum_from_exact weights Hw (inject_Z 0)) as (total & Hsum & Htot).
  assert (Htotal' : total == total_of weights) by (rewrite Htot; unfold inject_Z; lra).
  exists total. split; [exact Htotal'|].
  intros submission ai_result.
  destruct (detection_step_returns config ai_result _ Hfod)
    as (penalized & Hdet & _).
  destruct (late_step_returns config submission late_penalty penalized Hlate)
    as (scores & Hstep & _).
  assert (Hnz : ~ total == 0) by lra.
  destruct (weighted_sum_exact weights total Hw Hnz scores (inject_Z 0))
    as (overall & Hov & Hmean).
  destruct (feedback_returns config submission ai_result scores overall _ Hlate)
    as (text & Htext).
  eexists. exists penalized. split; [|split; [exact Hdet | split]].
  - unfold calculate_grade.
    rewrite Hdet. cbn [bind]. rewrite Hstep. cbn [bind].
    rewrite Hcrit. cbn [bind values_of ret].
    unfold py_sum. cbn [py_int Q_number]. rewrite Hsum. cbn [bind].
    rewrite Hov. cbn [bind]. rewrite Htext. cbn [bind ret]. reflexivity.
  - exact Hstep.
  - cbn [overall_score criteria_scores]. rewrite Hmean. unfold inject_Z. lra.
Qed.

Lemma letter_grade_below_60 (score : Q) :
  score < 60 -> _score_to_letter_grade score = "F"%string.
Proof.
  intros Hlow. unfold _score_to_letter_grade, ge; cbn [py_le py_int Q_number].
  unfold inject_Z.
  split_on_thresholds; try reflexivity; exfalso; lra.
Qed.

(** On exact rationals the penalties act on the overall score as factors
    that multiply (on binary64 up to rounding only): with weights that are non-negative numbers of positive
    sum and a numeric late penalty, the overall score of a submission is
    the score it would have on time and without a detection result,
    times the detection factor (1, or 1 - min(0.5, confidence) for a
    flagged result, or 0 under [fail_on_detection]), times the late
    factor (1, or 1 - late_penalty / 100 for a late submission); every
    criterion score is scaled in the same way.  So a flagged submission
    under [fail_on_detection] gets the score 0 and the grade F. *)
Lemma penalties_multiply_overall_score config submission
  (ai_result : option AIDetectionResult) (fail_on_detection : json Q)
  (late_penalty : Q) weights :
  config_item config "ai_detection" "fail_on_detection" = inr fail_on_detection ->
  config_item config "assignment" "late_penalty" = inr (JNum late_penalty) ->
  config_item config "grading" "criteria" = inr (JObj weights) ->
  weights_non_negative weights ->
  0 < total_of weights ->
  let factor :=
    detection_factor (truthy fail_on_detection) ai_result
    * late_factor (late_submission submission) late_penalty in
  exists g unpenalized,
    calculate_grade config submission ai_result = inr g
    /\ calculate_grade config (on_time submission) None = inr unpenalized
    /\ criteria_scores unpenalized = base_scores
    /\ scaled_by factor (criteria_scores g) (criteria_scores unpenalized)
    /\ overall_score g == overall_score unpenalized * factor
    /\ (flagged ai_result = true -> truthy fail_on_detection = true ->
        overall_score g == 0 /\ grade_letter g = "F"%string).
Proof.
  intros Hfod Hlate Hcrit Hw Htotal factor.
  destruct (calculate_grade_exact config fail_on_detection late_penalty weights
              Hfod Hlate Hcrit Hw Htotal) as (total & _ & Hgrades).
  destruct (Hgrades submission ai_result)
    as (g & penalized & Hg & Hdet & Hstep & Hmean).
  destruct (Hgrades (on_time submission) None)
    as (g0 & penalized0 & Hg0 & Hdet0 & Hstep0 & Hmean0).
  cbn [detection_step ret] in Hdet0. injection Hdet0 as <-.
  unfold late_step in Hstep0. cbn [on_time late_submission ret] in Hstep0.
  injection Hstep0 as Hbase.
  assert (Hscaled : scaled_by factor (criteria_scores g) base_scores).
  { unfold factor.
    apply (scaled_by_twice _ _ (criteria_scores g) penalized base_scores).
    - now apply (late_step_scaled config submission late_penalty penalized).
    - now apply (detection_step_scaled config ai_result fail_on_detection). }
  assert (Hoverall : overall_score g == overall_score g0 * factor).
  { rewrite Hmean, Hmean0, <- Hbase. now apply weighted_mean_scaled. }
  exists g, g0. split; [exact Hg|]. split; [exact Hg0|].
  split; [now symmetry|]. split; [now rewrite <- Hbase|].
  split; [exact Hoverall|].
  intros Hflag Hfail.
  assert (Hzero : overall_score g == 0).
  { rewrite Hoverall. unfold factor, detection_factor.
    destruct ai_result as [result|]; [|discriminate Hflag].
    simpl in Hflag. rewrite Hflag, Hfail. ring. }
  split; [exact Hzero|].
  apply calculate_grade_inv in Hg
    as (? & ? & ? & ? & ? & overall & ? & _ & _ & _ & _ & _ & _ & _ & ->).
  cbn [overall_score grade_letter] in *.
  apply letter_grade_below_60. rewrite Hzero. reflexivity.
Qed.




End PenaltyFactors.

(** The factors on a late submission flagged with confidence 0.3, under
    the default configuration: 0.7 * 0.9 of the score. *)
Lemma penalties_multiply_overall_score_witness :
  exists g unpenalized,
    calculate_grade default_config (sample_submission true)
      (Some (sample_detection true (3 # 10))) = inr g
    /\ calculate_grade default_config (on_time (sample_submission true)) None
       = inr unpenalized
    /\ overall_score g == overall_score unpenalized * (63 # 100).
Proof.
  destruct (penalties_multiply_overall_score default_config (sample_submission true)
              (Some (sample_detection true (3 # 10)))
              (JBool false) 10
              [ ("correctness", JNum 40); ("code_quality", JNum 25);
                ("documentation", JNum 15); ("testing", JNum 10);
                ("creativity", JNum 10) ])
    as (g & unpenalized & Hg & Hg0 & _ & _ & Hoverall & _).
  - reflexivity.
  - reflexivity.
  - reflexivity.
  - unfold weights_non_negative.
    repeat constructor; eexists; (split; [reflexivity | discriminate]).
  - reflexivity.
  - exists g, unpenalized. split; [exact Hg|]. split; [exact Hg0|].
    rewrite Hoverall. apply Qmult_comp; reflexivity.
Defined.

(** ** Letter grades and the order of scores *)

(** X15.  A higher score never gives a worse letter grade: the place of
    the grade in the table A+, A, ..., D-, F does not go down when the
    score goes up, and equal scores get the same grade. *)
Theorem letter_grade_is_monotone (low high : Q) :
  low <= high ->
  (grade_rank (_score_to_letter_grade high)
   <= grade_rank (_score_to_letter_grade low))%nat
  /\ (high <= low -> _score_to_letter_grade low = _score_to_letter_grade high).
Proof.
  intros Hle.
  unfold _score_to_letter_grade, ge; cbn [py_le py_int Q_number].
  unfold inject_Z.
  split_on_thresholds;
    first [ exfalso; lra
          | split; [vm_compute; lia | intros Hge; first [reflexivity | exfalso; lra]] ].
Qed.

(** X15 on the scores 79.5 and 91. *)
Lemma letter_grade_is_monotone_witness :
  (grade_rank (_score_to_letter_grade (91 : Q))
   <= grade_rank (_score_to_letter_grade (795 # 10 : Q)))%nat.
Proof.
  apply (letter_grade_is_monotone (795 # 10) 91). discriminate.
Defined.

(** ** Reports: what is written, and when *)

Section WritesFacts.
Context {R : Type} {number : PyNumber R}.
Implicit Types (config : dict (json R)) (results : list (GradingResult (R := R)))
  (a : artifact (R := R)).

Lemma in_wbind {A B} (m : Writes A) (k : A -> Writes B) a :
  In a (fst (wbind m k)) ->
  In a (fst m) \/ exists x, snd m = inr x /\ In a (fst (k x)).
Proof.
  destruct m as [written [e|x]]; simpl; [tauto|].
  destruct (k x) as [more outcome] eqn:E. simpl. rewrite in_app_iff.
  intros [H|H]; [now left|]. right. exists x. rewrite E. auto.
Qed.

Lemma in_lifted {A B} (m : Exc A) (k : A -> Writes B) a :
  In a (fst (wbind (lift m) k)) ->
  exists x, m = inr x /\ In a (fst (k x)).
Proof.
  intros H. apply in_wbind in H as [[]|(x & Hx & H)]. now exists x.
Qed.

Lemma in_emitted {B} (file : artifact) (k : unit -> Writes B) a :
  In a (fst (wbind (emit file) k)) -> a = file \/ In a (fst (k tt)).
Proof.
  intros H. apply in_wbind in H as [[<-|[]]|([] & _ & H)]; auto.
Qed.

Lemma individual_feedback_files config results a :
  In a (fst (_generate_individual_feedback config results)) ->
  exists path result, a = FeedbackFile path result /\ In result results.
Proof.
  unfold _generate_individual_feedback.
  induction results as [|r results IH]; cbn [for_each]; [intros []|].
  intros H. apply in_wbind in H as [H|(_ & _ & H)].
  - apply in_lifted in H as (path & _ & [<-|[]]).
    exists path, r. split; [reflexivity | now left].
  - destruct (IH H) as (path & result & Ha & Hin).
    exists path, result. split; [exact Ha | now right].
Qed.

Lemma summary_report_files config results a :
  In a (fst (_generate_summary_report config results)) ->
  exists path content, a = SummaryFile path content.
Proof.
  unfold _generate_summary_report. intros H.
  apply in_lifted in H as (path & _ & H).
  apply in_lifted in H as (average & _ & H).
  apply in_emitted in H as [->|[]]. eauto.
Qed.

Lemma csv_export_files config results a :
  In a (fst (_generate_csv_export config results)) ->
  exists path,
    a = CsvFile path
          {| csv_header := csv_fieldnames results;
             csv_rows := fst (write_rows (csv_fieldnames results) results) |}.
Proof.
  unfold _generate_csv_export. intros H.
  apply in_lifted in H as (path & _ & H).
  destruct (write_rows (csv_fieldnames results) results) as [rows outcome].
  apply in_emitted in H as [->|[]]. eauto.
Qed.

Lemma integrity_report_files config results a :
  In a (fst (_generate_integrity_report config results)) ->
  exists path content,
    a = IntegrityFile path content
    /\ exists result, In result results /\ academic_integrity_flag result = true.
Proof.
  unfold _generate_integrity_report.
  destruct (filter academic_integrity_flag results) as [|r others] eqn:E;
    [intros []|].
  intros H. apply in_lifted in H as (path & _ & H).
  apply in_emitted in H as [->|[]].
  exists path. eexists. split; [reflexivity|].
  exists r. apply filter_In. rewrite E. now left.
Qed.

Lemma makedirs_files (output_config : json R) key {B} (k : unit -> Writes B) a :
  In a (fst (wbind (makedirs output_config key) k)) ->
  (exists path, a = Directory path) \/ In a (fst (k tt)).
Proof.
  intros H. apply in_wbind in H as [H|([] & _ & H)]; [left | now right].
  unfold makedirs in H. apply in_lifted in H as (path & _ & [<-|[]]). eauto.
Qed.

Lemma when_enabled_files (output_config : json R) key (body : Writes unit)
  {B} (k : unit -> Writes B) a :
  In a (fst (wbind (when_enabled output_config key body) k)) ->
  (exists v, subscript output_config key = inr v /\ truthy v = true
             /\ In a (fst body))
  \/ In a (fst (k tt)).
Proof.
  intros H. apply in_wbind in H as [H|([] & _ & H)]; [left | now right].
  unfold when_enabled in H. apply in_lifted in H as (v & Hv & H).
  exists v. destruct (truthy v); [auto | destruct H].
Qed.

(** X18.  The report switches are respected: a feedback file, the
    summary or the CSV export is among the files of [generate_reports]
    only if its switch in the section [output] is set, every feedback
    file is the one of a result, and the integrity report is written
    only if some result is flagged (no switch governs it). *)
Theorem report_switches_are_respected config results a :
  In a (fst (generate_reports config results)) ->
  written_on_purpose config results a.
Proof.
  unfold generate_reports. intros H.
  apply in_lifted in H as (output_config & Houtput & H).
  assert (Hitem : forall key, config_item config "output" key
                              = subscript output_config key).
  { intros key. unfold config_item. now rewrite Houtput. }
  apply makedirs_files in H as [(path & ->)|H]; [exact I|].
  apply makedirs_files in H as [(path & ->)|H]; [exact I|].
  apply when_enabled_files in H as [(v & Hv & Hon & H)|H].
  { apply individual_feedback_files in H as (path & result & -> & Hin).
    split; [|exact Hin]. exists v. now rewrite Hitem. }
  apply when_enabled_files in H as [(v & Hv & Hon & H)|H].
  { apply summary_report_files in H as (path & content & ->).
    exists v. now rewrite Hitem. }
  apply when_enabled_files in H as [(v & Hv & Hon & H)|H].
  { apply csv_export_files in H as (path & ->).
    exists v. now rewrite Hitem. }
  apply integrity_report_files in H as (path & content & -> & Hflagged).
  exact Hflagged.
Qed.



(** X16.  With no result at all the reports are written without a
    division by zero: no feedback file and no integrity report, a
    summary that shows 0 students, the average 0 and, for each of the
    thirteen grades, the count 0 and the percentage 0, and an export
    that holds the nine fixed columns and no data row. *)
Theorem reports_of_no_results config (summary_path csv_path : string)
  (title : json R) :
  output_path config "reports_dir" "grading_summary.md" = inr summary_path ->
  output_path config "results_dir" "grades.csv" = inr csv_path ->
  config_item config "assignment" "title" = inr title ->
  _generate_individual_feedback config [] = ([], inr tt)
  /\ _generate_summary_report config []
     = ([SummaryFile summary_path
           (inr {| assignment_title := title;
                   total_students := 0;
                   avg_score := py_int 0;
                   ai_flagged := 0;
                   manual_review_needed := 0;
                   grade_distribution :=
                     map (fun grade => (grade, 0%nat, py_int 0)) all_grades;
                   alerts := [] |})],
        inr tt)
  /\ _generate_csv_export config []
     = ([CsvFile csv_path {| csv_header := fixed_fieldnames; csv_rows := [] |}],
        inr tt)
  /\ _generate_integrity_report config [] = ([], inr tt).
Proof.
  intros Hsummary Hcsv Htitle. split; [reflexivity|].
  split; [|split; [|reflexivity]].
  - unfold _generate_summary_report, summary_content.
    rewrite Hsummary, Htitle. reflexivity.
  - unfold _generate_csv_export. rewrite Hcsv. reflexivity.
Qed.

End WritesFacts.

(** ** The pool of workers *)

Section PoolFacts.
Context {R : Type} {number : PyNumber R}.
Implicit Types (config : dict (json R)).

(** X17.  When the pool cannot be started nothing is graded and nothing
    is written.  If the constructor of the pool raises (the number of
    workers is missing, is not a number, or is a number not above 0),
    [process_all_submissions] raises, and so does [run_pipeline], with
    the submissions found, no result and no file; for a number not above
    0 the exception is the [ValueError] of [ThreadPoolExecutor].  If the
    constructor accepts a number with which no worker starts (a NaN),
    [process_all_submissions] never returns, and neither does
    [run_pipeline]. *)
Theorem pool_failure_stops_the_run config (submissions_dir : string)
  (root : submissions_root) (ai_code_review : StudentSubmission -> detector_run)
  (completion : list nat) (first : StudentSubmission)
  (others : list StudentSubmission) :
  discover_submissions submissions_dir root = inr (first :: others) ->
  (forall e,
      (max_workers <- config_item config "processing" "parallel_workers" ;;
       thread_pool max_workers) = inl e ->
      process_all_submissions config ai_code_review completion (first :: others)
      = Some (inl e)
      /\ run_pipeline config submissions_dir root ai_code_review completion
         = {| run_submissions := first :: others; run_results := [];
              run_artifacts := []; run_outcome := Some (inl e) |}
      /\ (forall x,
             config_item config "processing" "parallel_workers" = inr (JNum x) ->
             py_le x (py_int 0) = true ->
             e = ValueError "max_workers must be greater than 0"))
  /\ ((max_workers <- config_item config "processing" "parallel_workers" ;;
       _ <- thread_pool max_workers ;;
       ret (first_worker_starts max_workers)) = inr false ->
      process_all_submissions config ai_code_review completion (first :: others)
      = None
      /\ run_pipeline config submissions_dir root ai_code_review completion
         = {| run_submissions := first :: others; run_results := [];
              run_artifacts := []; run_outcome := None |}).
Proof.
  intros Hfound.
  destruct (process_all_submissions_without_pool config ai_code_review completion
              (first :: others)) as [Hraises Hhangs].
  split.
  - intros e Hpool. specialize (Hraises e Hpool).
    split; [exact Hraises|]. split.
    + unfold run_pipeline. now rewrite Hfound, Hraises.
    + intros x Hworkers Hle. rewrite Hworkers in Hpool.
      cbn [bind thread_pool] in Hpool. rewrite Hle in Hpool.
      now injection Hpool as <-.
  - intros Hidle. assert (Hnone := Hhangs Hidle ltac:(discriminate)).
    split; [exact Hnone|].
    unfold run_pipeline. now rewrite Hfound, Hnone.
Qed.

End PoolFacts.

(** X17 on a pool of 0 workers, and on binary64 with a NaN for the number
    of workers. *)
Lemma pool_failure_stops_the_run_witness :
  run_pipeline no_workers_config "submissions" class_folder detector_times_out []
  = {| run_submissions := flat_map discover_entry class_entries;
       run_results := []; run_artifacts := [];
       run_outcome := Some (inl (ValueError "max_workers must be greater than 0")) |}
  /\ run_outcome
       (run_pipeline nan_workers_config "submissions" class_folder
          (fun _ => RunTimeout) [])
     = None.
Proof.
  split.
  - destruct (pool_failure_stops_the_run no_workers_config "submissions"
                class_folder detector_times_out []
                {| student_id := "s001_doe_jane";
                   student_name := "doe jane";
                   submission_path := "submissions/s001_doe_jane";
                   submission_time := Some 1700000000000000%Z;
                   late_submission := false |}
                (flat_map discover_entry (tl class_entries)) eq_refl)
      as (Hraises & _).
    destruct (Hraises (ValueError "max_workers must be greater than 0") eq_refl)
      as (_ & Hrun & _).
    exact Hrun.
  - destruct (pool_failure_stops_the_run nan_workers_config "submissions"
                class_folder (fun _ => RunTimeout) []
                {| student_id := "s001_doe_jane";
                   student_name := "doe jane";
                   submission_path := "submissions/s001_doe_jane";
                   submission_time := Some 1700000000000000%Z;
                   late_submission := false |}
                (flat_map discover_entry (tl class_entries)) eq_refl)
      as (_ & Hhangs).
    destruct (Hhangs eq_refl) as (_ & Hrun).
    rewrite Hrun. reflexivity.
Defined.

(** X18 on the feedback file of one result, under the default
    configuration. *)
Lemma report_switches_are_respected_witness :
  written_on_purpose default_config
    [process_submission default_config detector_times_out (sample_submission false)]
    (feedback_file
       (process_submission default_config detector_times_out
          (sample_submission false))).
Proof.
  apply report_switches_are_respected.
  right. right. left. reflexivity.
Defined.


(** X16 under the default configuration. *)
Lemma reports_of_no_results_witness :
  _generate_csv_export (default_config (R := Q)) []
  = ([CsvFile "./grading-results/grades.csv"
        {| csv_header := fixed_fieldnames; csv_rows := [] |}],
     inr tt).
Proof.
  destruct (reports_of_no_results (default_config (R := Q))
              "./grading-reports/grading_summary.md" "./grading-results/grades.csv"
              (JStr "Programming Assignment") eq_refl eq_refl eq_refl)
    as (_ & _ & Hcsv & _).
  exact Hcsv.
Defined.

(** ** Weights that add up to zero *)

Section ZeroWeights.
Implicit Types (weights : dict (json Q)) (config : dict (json Q)).

Lemma zero_total_raises config submission (ai_result : option AIDetectionResult)
  (fail_on_detection : json Q) weights :
  late_submission submission = false ->
  config_item config "ai_detection" "fail_on_detection" = inr fail_on_detection ->
  config_item config "grading" "criteria" = inr (JObj weights) ->
  weights_non_negative weights ->
  total_of weights == 0 ->
  calculate_grade config submission ai_result = inl ZeroDivisionError.
Proof.
  intros Hontime Hfod Hcrit Hw Hzero.
  destruct (detection_step_returns config ai_result _ Hfod)
    as (penalized & Hdet & Hkeys).
  destruct (sum_from_exact weights Hw (inject_Z 0)) as (total & Hsum & Htot).
  assert (Hnone : Qeq_bool total 0 = true).
  { apply Qeq_bool_iff. rewrite Htot, Hzero. reflexivity. }
  destruct penalized as [|[criterion score] rest]; [discriminate Hkeys|].
  destruct (weight_at_numeric weights criterion Hw) as (w & Hget & _).
  unfold calculate_grade.
  rewrite Hdet. cbn [bind]. unfold late_step. rewrite Hontime. cbn [bind ret].
  rewrite Hcrit. cbn [bind values_of ret].
  unfold py_sum. cbn [py_int Q_number]. rewrite Hsum. cbn [bind].
  cbn [weighted_sum]. rewrite Hget. cbn [bind as_number ret].
  unfold truediv. cbn [py_is_zero Q_number]. rewrite Hnone. reflexivity.
Qed.

(** X20.  When the criterion weights are numbers, none negative, that
    add up to zero (so every weight is 0), grading divides by zero:
    for a submission that is not late (as every discovered submission
    is), [calculate_grade] raises [ZeroDivisionError] whatever the
    detection result, and [process_submission] gives the student the
    failing result, an F with the score 0 and manual review. *)
Theorem zero_weights_fail_every_submission config
  (ai_code_review : StudentSubmission -> detector_run) submission
  (enabled fail_on_detection : json Q) weights :
  late_submission submission = false ->
  config_item config "ai_detection" "enabled" = inr enabled ->
  config_item config "ai_detection" "fail_on_detection" = inr fail_on_detection ->
  config_item config "grading" "criteria" = inr (JObj weights) ->
  weights_non_negative weights ->
  total_of weights == 0 ->
  (forall ai_result : option AIDetectionResult,
      calculate_grade config submission ai_result = inl ZeroDivisionError)
  /\ process_submission config ai_code_review submission
     = failing_result submission ZeroDivisionError.
Proof.
  intros Hontime Henabled Hfod Hcrit Hw Hzero.
  assert (Hraise : forall ai_result : option AIDetectionResult,
             calculate_grade config submission ai_result = inl ZeroDivisionError).
  { intros ai_result.
    exact (zero_total_raises config submission ai_result fail_on_detection
             weights Hontime Hfod Hcrit Hw Hzero). }
  split; [exact Hraise|].
  unfold process_submission.
  rewrite (run_ai_detection_returns config ai_code_review submission enabled
             Henabled).
  cbn [bind]. now rewrite Hraise.
Qed.

End ZeroWeights.

(** X20 on the configuration whose five weights are 0. *)
Lemma zero_weights_fail_every_submission_witness :
  process_submission zero_weights_config detector_flags_one (sample_submission false)
  = failing_result (sample_submission false) ZeroDivisionError.
Proof.
  apply (zero_weights_fail_every_submission zero_weights_config detector_flags_one
           (sample_submission false) (JBool true) (JBool false)
           [ ("correctness", JNum 0); ("code_quality", JNum 0);
             ("documentation", JNum 0); ("testing", JNum 0);
             ("creativity", JNum 0) ]); try reflexivity.
  unfold weights_non_negative.
  repeat constructor; eexists; (split; [reflexivity | discriminate]).
Defined.

(** ** The summary of a batch *)

Section ResultFacts.
Context {R : Type} {number : PyNumber R}.




End ResultFacts.

Section SummaryFacts.
Implicit Types (config : dict (json Q)) (results : list (GradingResult (R := Q))).




End SummaryFacts.


(** ** The feedback text *)

Section FeedbackFacts.
Context {R : Type} {number : PyNumber R}.
Implicit Types (config : dict (json R)) (submission : StudentSubmission)
  (scores : dict R).

Lemma criterion_lines scores (line : list (fragment (R := R))) :
  In line (map (fun kv => [Lit "- "; Lit (title (fst kv)); Lit ": ";
                           Fixed 1 (snd kv); Lit "/100"]) scores) ->
  exists criterion score, In (criterion, score) scores
                          /\ line = criterion_line criterion score.
Proof.
  intros H. apply in_map_iff in H as ([criterion score] & <- & Hin).
  now exists criterion, score.
Qed.

Ltac find_line :=
  match goal with
  | |- _ = _ => reflexivity
  | |- _ \/ _ => (left; find_line) || (right; find_line)
  end.

Ltac split_lines Hin Hbreakdown Hrecommendation :=
  repeat (progress cbn [In] in Hin || rewrite in_app_iff in Hin);
  repeat match type of Hin with
         | _ \/ _ => destruct Hin as [Hin|Hin]
         end;
  try contradiction;
  try (apply Hbreakdown in Hin; discriminate Hin);
  try discriminate Hin;
  try (injection Hin as Hin;
       destruct Hrecommendation as [E|[E|[E|E]]]; rewrite E in Hin;
       discriminate Hin).

(** What the lines of a feedback text show. *)
Lemma feedback_lines config submission
  (ai_result : option AIDetectionResult) scores (overall : R)
  (feedback_text : text) :
  _generate_feedback config submission ai_result scores overall
  = inr feedback_text ->
  hd [] feedback_text = [Lit "Overall Score: "; Fixed 1 overall; Lit "/100"]
  /\ (forall criterion score,
         In (criterion, score) scores ->
         In (criterion_line criterion score) feedback_text)
  /\ (In alert_line feedback_text <-> flagged ai_result = true)
  /\ (In meeting_line feedback_text <-> flagged ai_result = true)
  /\ (In passed_line feedback_text
      <-> exists result, ai_result = Some result /\ is_ai_generated result = false)
  /\ ((exists penalty, In (late_line penalty) feedback_text)
      <-> late_submission submission = true)
  /\ (forall penalty,
         In (late_line penalty) feedback_text ->
         config_item config "assignment" "late_penalty" = inr penalty).
Proof.
  unfold _generate_feedback. intros H.
  apply bind_inr in H as (late & Hlate & H). injection H as <-.
  set (recommendation := if ge overall (py_int 90) then _ else _).
  assert (Hrecommendation :
            recommendation = "- Excellent work! Continue practicing these skills."
            \/ recommendation
               = "- Good work! Focus on code quality and documentation."
            \/ recommendation
               = "- Passing grade. Review feedback and improve weak areas."
            \/ recommendation
               = "- Below passing. Please review course materials and seek help.").
  { unfold recommendation.
    destruct (ge overall (py_int 90)); [tauto|].
    destruct (ge overall (py_int 80)); [tauto|].
    destruct (ge overall (py_int 70)); tauto. }
  clearbody recommendation.
  assert (Hbreakdown : forall line,
             In line (map (fun kv => [Lit "- "; Lit (title (fst kv)); Lit ": ";
                                      Fixed 1 (snd kv); Lit "/100"]) scores) ->
             List.length line = 5%nat).
  { intros line Hin. apply criterion_lines in Hin as (? & ? & _ & ->).
    reflexivity. }
  split; [reflexivity|]. split.
  { intros criterion score Hin. right. right. right.
    apply in_or_app. left. apply in_or_app. left.
    apply in_map_iff. now exists (criterion, score). }
  unfold alert_line, meeting_line, passed_line, late_line.
  destruct (late_submission submission) eqn:Hlate_flag;
    [apply bind_inr in Hlate as (p & Hp & Hlate)|];
    injection Hlate as <-;
    (destruct ai_result as [result|];
     [destruct (is_ai_generated result) eqn:Hflag|]);
    cbn [flagged]; try rewrite Hflag;
    repeat split; intros;
    try match goal with
        | H : exists _, In _ _ |- _ => destruct H as (? & H)
        end;
    first
      [ solve [eauto]
      | match goal with
        | Hin : In _ _ |- _ =>
            split_lines Hin Hbreakdown Hrecommendation;
            solve [eauto | injection Hin as <-; assumption]
        end
      | solve [repeat (progress cbn [In] || rewrite in_app_iff); find_line]
      | solve [eexists; repeat (progress cbn [In] || rewrite in_app_iff);
               find_line]
      | discriminate
      | match goal with
        | H : exists _, _ /\ _ |- _ => destruct H as (? & ? & ?); congruence
        end ].
Qed.

(** X22.  The feedback of a graded result says what was applied: it
    opens with the overall score of the result, has one line per
    criterion score of the result, carries the integrity alert and the
    invitation to a meeting exactly when the result is flagged, the line
    that the integrity check passed exactly when there is a detection
    result that is not flagged, and the late penalty line, with the
    configured penalty, exactly when the submission is late. *)
Theorem feedback_tells_what_was_applied config submission
  (ai_result : option AIDetectionResult) (g : GradingResult) :
  calculate_grade config submission ai_result = inr g ->
  hd [] (feedback g)
  = [Lit "Overall Score: "; Fixed 1 (overall_score g); Lit "/100"]
  /\ (forall criterion score,
         In (criterion, score) (criteria_scores g) ->
         In (criterion_line criterion score) (feedback g))
  /\ (In alert_line (feedback g) <-> academic_integrity_flag g = true)
  /\ (In meeting_line (feedback g) <-> academic_integrity_flag g = true)
  /\ (In passed_line (feedback g)
      <-> exists result, ai_result = Some result /\ is_ai_generated result = false)
  /\ ((exists penalty, In (late_line penalty) (feedback g))
      <-> late_submission submission = true)
  /\ (forall penalty,
         In (late_line penalty) (feedback g) ->
         config_item config "assignment" "late_penalty" = inr penalty).
Proof.
  intros Hg.
  apply calculate_grade_inv in Hg
    as (penalized & scores & ? & ? & ? & overall & feedback_text
        & _ & _ & _ & _ & _ & _ & Htext & ->).
  cbn [feedback overall_score criteria_scores academic_integrity_flag].
  exact (feedback_lines config submission ai_result scores overall feedback_text
           Htext).
Qed.

End FeedbackFacts.

(** X22 on a late submission flagged with confidence 0.95, under the
    default configuration. *)
Lemma feedback_tells_what_was_applied_witness :
  exists g,
    calculate_grade default_config (sample_submission true)
      (Some (sample_detection true (95 # 100))) = inr g
    /\ In alert_line (feedback g)
    /\ In (late_line (JNum 10)) (feedback g).
Proof.
  assert (Hgraded : exists g,
             calculate_grade default_config (sample_submission true)
               (Some (sample_detection true (95 # 100))) = inr g
             /\ academic_integrity_flag g = true)
    by (eexists; split; vm_compute; reflexivity).
  destruct Hgraded as (g & Hg & Hflag).
  exists g. split; [exact Hg|].
  destruct (feedback_tells_what_was_applied default_config (sample_submission true)
              (Some (sample_detection true (95 # 100))) g Hg)
    as (_ & _ & Halert & _ & _ & Hlate & Hpenalty).
  split; [now apply Halert|].
  destruct Hlate as [_ Hlate]. destruct (Hlate eq_refl) as (penalty & Hin).
  pose proof (Hpenalty penalty Hin) as Hp. cbv in Hp. injection Hp as <-.
  exact Hin.
Defined.

(** X11 on the extensions [.PY] and [.py]. *)
Lemma code_extensions_ignore_case_witness :
  _has_code_files
    {| entry_name := "s005_ito_ann"; entry_path := "submissions/s005_ito_ann";
       entry_is_dir := true; entry_suffixes := [".PY"; ".TXT"];
       entry_mtime := None |}
  = _has_code_files
      {| entry_name := "s006_ito_ben"; entry_path := "submissions/s006_ito_ben";
         entry_is_dir := true; entry_suffixes := [".py"; ".txt"];
         entry_mtime := None |}.
Proof.
  destruct (code_extensions_ignore_case
              {| entry_name := "s006_ito_ben"; entry_path := "submissions/s006_ito_ben";
                 entry_is_dir := true; entry_suffixes := [".py"; ".txt"];
                 entry_mtime := None |}
              {| entry_name := "s005_ito_ann"; entry_path := "submissions/s005_ito_ann";
                 entry_is_dir := true; entry_suffixes := [".PY"; ".TXT"];
                 entry_mtime := None |} eq_refl) as [Hcode _].
  exact Hcode.
Defined.
